(** * zenity: dialogs from the command line

    A shallow embedding of the parts of the repository that decide the
    behaviour of
    - [internal/zenutil/run_darwin.go]: the scripting-bridge runner [Run];
    - [cmd/zenity/main.go]: flag defaults, option loading, result printing
      and exit codes, the column counter;
    - [pwd_unix.go] and [color_unix.go]: the credential and colour dialogs
      of the external-process family.

    Go strings are byte strings ([string]); a nil slice or nil error is
    [None]; Go's [int] wraps around at the platform width; calls into the
    operating system are answered by an explicit record of outcomes, and
    the effects of a call are collected in a trace. *)

From Stdlib Require Import String Ascii List ZArith Bool Lia.
Import ListNotations.

Local Open Scope string_scope.
Local Open Scope Z_scope.

(* ===================================================================== *)
(** ** Values shared by the packages *)
(* ===================================================================== *)

(** Go [error] values that reach this code.  [ExitError] carries the exit
    code and the text of the process state ([exit status 3],
    [signal: killed]); [SysError] stands for any other error of the
    runtime, with its message and whether it reports [Timeout() == true]. *)
Inductive error : Type :=
| Canceled                                   (* context.Canceled *)
| DeadlineExceeded                           (* context.DeadlineExceeded *)
| ExitError (code : Z) (state : string)      (* *exec.ExitError *)
| ErrExtraButton                             (* zenity.ErrExtraButton *)
| ErrorString (msg : string)                 (* errors.New(msg) *)
| SysError (msg : string) (timeout : bool).

Definition error_eqb (a b : error) : bool :=
  match a, b with
  | Canceled, Canceled => true
  | DeadlineExceeded, DeadlineExceeded => true
  | ExitError c s, ExitError c' s' => (c =? c') && String.eqb s s'
  | ErrExtraButton, ErrExtraButton => true
  | ErrorString m, ErrorString m' => String.eqb m m'
  | SysError m t, SysError m' t' => String.eqb m m' && Bool.eqb t t'
  | _, _ => false
  end.

(** [err.Error()].  The text of [ErrExtraButton] is declared outside the
    files at hand; the command never prints it. *)
Definition Error (e : error) : string :=
  match e with
  | Canceled => "context canceled"
  | DeadlineExceeded => "context deadline exceeded"
  | ExitError _ state => state
  | ErrExtraButton => "extra button pressed"
  | ErrorString msg => msg
  | SysError msg _ => msg
  end.

(** [os.IsTimeout(err)]: the error has a [Timeout() bool] method that
    answers true; [os.IsTimeout(nil)] is false. *)
Definition IsTimeout (err : option error) : bool :=
  match err with
  | Some DeadlineExceeded => true
  | Some (SysError _ t) => t
  | _ => false
  end.

(** Whether an error is one of the two a context reports. *)
Definition is_context_error (e : error) : bool :=
  match e with
  | Canceled | DeadlineExceeded => true
  | _ => false
  end.

(** The errors of the backend process itself: how it ended, or why it
    could not be started. *)
Definition is_process_error (e : error) : bool :=
  match e with
  | ExitError _ _ | SysError _ _ => true
  | _ => false
  end.

(** The two errors a context reports. *)
Inductive ContextError : Type := CtxCanceled | CtxDeadlineExceeded.

Definition context_error (r : ContextError) : error :=
  match r with
  | CtxCanceled => Canceled
  | CtxDeadlineExceeded => DeadlineExceeded
  end.

(** A [context.Context] over a logical clock: [done_at] is the instant its
    [Done] channel closes ([None]: never), [done_err] what [Err] reports
    from then on. *)
Record Context : Type := mkContext {
  done_at : option Z;
  done_err : ContextError
}.

(** [ctx.Err()] read at instant [now]. *)
Definition Context_Err (c : Context) (now : Z) : option error :=
  match done_at c with
  | Some t => if t <=? now then Some (context_error (done_err c)) else None
  | None => None
  end.

(** [context.WithTimeout(context.Background(), d)] created at [now]. *)
Definition WithTimeout (now d : Z) : Context :=
  {| done_at := Some (now + d); done_err := CtxDeadlineExceeded |}.

(** [context.WithCancel]: [cancel] is called at [at_] ([None]: never). *)
Definition WithCancel (at_ : option Z) : Context :=
  {| done_at := at_; done_err := CtxCanceled |}.

(* ===================================================================== *)
(** ** Go's [strings] functions used by the sources *)
(* ===================================================================== *)

Module Strings.

(** The one-character string. *)
Definition char_string (c : ascii) : string := String c EmptyString.

(** [strings.HasPrefix(s, p)]. *)
Fixpoint HasPrefix (s p : string) : bool :=
  match p, s with
  | EmptyString, _ => true
  | String _ _, EmptyString => false
  | String a p', String b s' => Ascii.eqb a b && HasPrefix s' p'
  end.

(** [s[len(p):]] for a prefix [p] of [s]. *)
Fixpoint drop (p s : string) : string :=
  match p, s with
  | String _ p', String _ s' => drop p' s'
  | _, _ => s
  end.

(** The first occurrence of [sep] in [s], as the pair
    [(s[:m], s[m+len(sep):])] with [m = strings.Index(s, sep)];
    [None] when [strings.Index] is [-1]. *)
Fixpoint Cut (s sep : string) : option (string * string) :=
  if HasPrefix s sep then Some (EmptyString, drop sep s)
  else match s with
       | EmptyString => None
       | String c s' =>
           match Cut s' sep with
           | Some (a, b) => Some (String c a, b)
           | None => None
           end
       end.

(** [strings.Contains(s, sep)]. *)
Definition Contains (s sep : string) : bool :=
  match Cut s sep with Some _ => true | None => false end.

(** The loop of [genSplit]: at most [cuts] separators are consumed, the
    rest of the string is the last element. *)
Fixpoint genSplit (s sep : string) (cuts : nat) : list string :=
  match cuts with
  | O => [s]
  | S k =>
      match Cut s sep with
      | None => [s]
      | Some (a, rest) => a :: genSplit rest sep k
      end
  end.

(** [explode]: the string cut after every character, at most [n] pieces
    (characters are single bytes here). *)
Fixpoint explode (s : string) (n : nat) : list string :=
  match s, n with
  | EmptyString, _ => []
  | _, O => []
  | _, S O => [s]
  | String c s', S k => String c EmptyString :: explode s' k
  end.

(** [strings.SplitN(s, sep, n)]: [n == 0] gives nil, [n < 0] is
    unlimited, and [n] is capped at [len(s) + 1]. *)
Definition SplitN (s sep : string) (n : Z) : list string :=
  if n =? 0 then []
  else if String.eqb sep EmptyString then
    explode s (if n <? 0 then String.length s else Z.to_nat n)
  else
    genSplit s sep
      (if n <? 0 then String.length s
       else Nat.min (Z.to_nat (n - 1)) (String.length s)).

(** [strings.Split(s, sep)] is [SplitN(s, sep, -1)]. *)
Definition Split (s sep : string) : list string := SplitN s sep (-1).

(** [strings.Join(elems, sep)]. *)
Fixpoint Join (elems : list string) (sep : string) : string :=
  match elems with
  | [] => EmptyString
  | [e] => e
  | e :: rest => e ++ sep ++ Join rest sep
  end.

(** [bytes.TrimSuffix(s, "\n")] on a byte string. *)
Fixpoint TrimNewline (s : string) : string :=
  match s with
  | EmptyString => EmptyString
  | String c EmptyString => if Ascii.eqb c "010"%char then EmptyString else s
  | String c s' => String c (TrimNewline s')
  end.

End Strings.

(* ===================================================================== *)
(** ** Package [zenutil], [run_darwin.go] *)
(* ===================================================================== *)

Module Zenutil.

(** The payload structures handed to the script templates. *)
Record FileOptions : Type := {
  fo_Prompt : option string;
  fo_Type : list string;
  fo_Name : string;
  fo_Location : string;
  fo_Multiple : bool;
  fo_Invisibles : bool
}.

Record File : Type := {
  f_Operation : string;
  f_Separator : string;
  f_Options : FileOptions
}.

Record DialogOptions : Type := {
  do_Message : string;
  do_As : string;
  do_Answer : option string;
  do_Hidden : bool;
  do_Title : option string;
  do_Icon : string;
  do_Buttons : list string;
  do_Cancel : Z;
  do_Default : Z;
  do_Timeout : Z
}.

Record Dialog : Type := {
  d_Operation : string;
  d_Text : string;
  d_Extra : option string;
  d_Options : DialogOptions
}.

Record ListOptions : Type := {
  lo_Title : option string;
  lo_Prompt : option string;
  lo_OK : option string;
  lo_Cancel : option string;
  lo_Default : list string;
  lo_Multiple : bool;
  lo_Empty : bool
}.

Record List : Type := {
  l_Items : list string;
  l_Separator : string;
  l_Options : ListOptions
}.

Record NotifyOptions : Type := {
  no_Title : option string;
  no_Subtitle : string
}.

Record Notify : Type := {
  n_Text : string;
  n_Options : NotifyOptions
}.

(** The [data interface{}] argument of [Run]: one payload per dialog
    kind. *)
Inductive Data : Type :=
| DataFile (f : File)
| DataDialog (d : Dialog)
| DataList (l : List)
| DataNotify (n : Notify).

(** A command built by [exec.Command] or [exec.CommandContext]. *)
Record Cmd : Type := {
  cmd_ctx : option Context;
  cmd_name : string;
  cmd_args : list string;
  cmd_Stdin : string
}.

Definition Command_ (name : string) (args : list string) : Cmd :=
  {| cmd_ctx := None; cmd_name := name; cmd_args := args;
     cmd_Stdin := EmptyString |}.

Definition CommandContext (ctx : Context) (name : string)
  (args : list string) : Cmd :=
  {| cmd_ctx := Some ctx; cmd_name := name; cmd_args := args;
     cmd_Stdin := EmptyString |}.

Definition set_Stdin (c : Cmd) (s : string) : Cmd :=
  {| cmd_ctx := cmd_ctx c; cmd_name := cmd_name c; cmd_args := cmd_args c;
     cmd_Stdin := s |}.

(** What the world answers to the calls of one [Run]:
    - [ExecuteTemplate]: the text written to the buffer and the error of
      [scripts.ExecuteTemplate] (the template set [scripts] is declared
      outside this file);
    - the steps of the fast path, each of which may fail;
    - [Output]: what [cmd.Output()] returns for a command;
    - the clock: [cmd.Output()] returns at [t_output], [ctx.Err()] is read
      [d_check] later and read again [d_reread] after that. *)
Record World : Type := {
  ExecuteTemplate : string -> Data -> string * option error;
  LookPath : string -> option string;
  TempFile_ok : bool;
  Remove_ok : bool;
  WriteString_ok : bool;
  Seek_ok : bool;
  Dup2_ok : bool;
  StderrClose_ok : bool;
  Exec_ok : bool;
  Output : Cmd -> option string * option error;
  t_output : Z;
  d_check : nat;
  d_reread : nat
}.

(** The effects of a call, in order. *)
Inductive event : Type :=
| EvTempFile                       (* ioutil.TempFile created a file *)
| EvRemove                         (* os.Remove unlinked it *)
| EvWriteString (s : string)       (* t.WriteString(script) *)
| EvSeek
| EvDup2Stdin                      (* the file is now standard input *)
| EvCloseStderr
| EvExec (path : string) (argv : list string)   (* syscall.Exec was called *)
| EvSpawn (c : Cmd).               (* a child process was run *)

(** How a call ends: the process image was replaced (nothing returns), or
    the function returned. *)
Inductive outcome : Type :=
| Replaced (path : string) (argv : list string) (stdin : string)
| Returned (out : option string) (err : option error).

(** The arguments every invocation of the interpreter gets. *)
Definition osascript_args : list string := ["-l"; "JavaScript"].

(** The [if Command { ... }] block: the chain of [else if] steps ending in
    [syscall.Exec].  Returns the effects and whether the image was
    replaced. *)
Definition exec_replace (w : World) (script : string)
  : list event * option outcome :=
  match LookPath w "osascript" with
  | None => ([], None)
  | Some path =>
    if negb (TempFile_ok w) then ([], None)
    else if negb (Remove_ok w) then ([EvTempFile], None)
    else if negb (WriteString_ok w) then ([EvTempFile; EvRemove], None)
    else if negb (Seek_ok w) then
      ([EvTempFile; EvRemove; EvWriteString script], None)
    else if negb (Dup2_ok w) then
      ([EvTempFile; EvRemove; EvWriteString script; EvSeek], None)
    else if negb (StderrClose_ok w) then
      ([EvTempFile; EvRemove; EvWriteString script; EvSeek; EvDup2Stdin],
       None)
    else
      let tr := [EvTempFile; EvRemove; EvWriteString script; EvSeek;
                 EvDup2Stdin; EvCloseStderr;
                 EvExec path ("osascript" :: osascript_args)] in
      if Exec_ok w
      then (tr, Some (Replaced path ("osascript" :: osascript_args) script))
      else (tr, None)
  end.

(** The block is entered only in command mode. *)
Definition fast_path (w : World) (Command : bool) (script : string)
  : list event * option outcome :=
  if Command then exec_replace w script else ([], None).

(** [Run(ctx, script, data)], with the package variable [Command]. *)
Definition Run (w : World) (Command : bool) (ctx : option Context)
  (script : string) (data : Data) : list event * outcome :=
  let (buf, err) := ExecuteTemplate w script data in
  match err with
  | Some e => ([], Returned None (Some e))
  | None =>
    let script := buf in
    let fast := fast_path w Command script in
    match snd fast with
    | Some replaced => (fst fast, replaced)
    | None =>
      match ctx with
      | Some c =>
        let cmd := set_Stdin (CommandContext c "osascript" osascript_args)
                             script in
        let (out, err) := Output w cmd in
        let t1 := t_output w + Z.of_nat (d_check w) in
        let t2 := t1 + Z.of_nat (d_reread w) in
        let err := match Context_Err c t1 with
                   | Some _ => Context_Err c t2
                   | None => err
                   end in
        ((fst fast ++ [EvSpawn cmd])%list, Returned out err)
      | None =>
        let cmd := set_Stdin (Command_ "osascript" osascript_args) script in
        let (out, err) := Output w cmd in
        ((fst fast ++ [EvSpawn cmd])%list, Returned out err)
      end
    end
  end.

(** [Buttons] and the method [SetButtons] of [Dialog]. *)
Record Buttons : Type := {
  b_Buttons : list string;
  b_Default : Z;
  b_Cancel : Z;
  b_Extra : Z
}.

(** [btns.Buttons[btns.Extra-1]] panics when the index is out of range:
    [None]. *)
Definition SetButtons (d : Dialog) (btns : Buttons) : option Dialog :=
  let o := d_Options d in
  let o' := {| do_Message := do_Message o; do_As := do_As o;
               do_Answer := do_Answer o; do_Hidden := do_Hidden o;
               do_Title := do_Title o; do_Icon := do_Icon o;
               do_Buttons := b_Buttons btns;
               do_Cancel := b_Cancel btns;
               do_Default := b_Default btns;
               do_Timeout := do_Timeout o |} in
  if 0 <? b_Extra btns then
    match nth_error (b_Buttons btns) (Z.to_nat (b_Extra btns - 1)) with
    | Some name =>
        Some {| d_Operation := d_Operation d; d_Text := d_Text d;
                d_Extra := Some name; d_Options := o' |}
    | None => None
    end
  else
    Some {| d_Operation := d_Operation d; d_Text := d_Text d;
            d_Extra := d_Extra d; d_Options := o' |}.

End Zenutil.

(* ===================================================================== *)
(** ** Package [zenity]: [pwd_unix.go], [color_unix.go] *)
(* ===================================================================== *)

Module Zenity.

(** A [color.Color] value, by its components. *)
Definition Color_ : Type := (Z * Z * Z * Z)%type.

(** Modelled from the spec: the enumeration [DialogIcon] is declared
    outside the files at hand; the spec lists the icon kinds
    (none, error, info, question, warning, password).  [ZeroIcon] is the
    value of a variable declared [var ico zenity.DialogIcon] and never
    assigned. *)
Inductive DialogIcon : Type :=
| ZeroIcon
| ErrorIcon
| InfoIcon
| QuestionIcon
| WarningIcon
| PasswordIcon
| NoIcon.

(** A file filter: a name and its ordered patterns. *)
Record FileFilter : Type := {
  Name : string;
  Patterns : list string
}.

(** Modelled from the spec: the option constructors ([zenity.Title],
    [zenity.Width], ...) are declared outside the files at hand; an option
    value is the constructor that was called and its argument. *)
Inductive Option : Type :=
| Title (s : string)
| Width (n : Z)
| Height (n : Z)
| OKLabel (s : string)
| CancelLabel (s : string)
| ExtraButton (s : string)
| Icon (i : DialogIcon)
| NoWrap
| Ellipsize
| DefaultCancel
| EntryText (s : string)
| HideText
| DisallowEmpty
| Directory
| ConfirmOverwrite
| ConfirmCreate
| ShowHidden
| Filename (s : string)
| FileFilters (fs : list FileFilter)
| Color (c : Color_)
| ShowPalette
| Context_ (ctx : Context).

(** Modelled from the spec: the structure [options] is declared outside
    the files at hand; these are the fields the two dialogs read, and the
    title and labels of the spec's option model ([None]: not set). *)
Record options : Type := {
  title : option string;
  okLabel : option string;
  cancelLabel : option string;
  extraButton : option string;
  username : bool;
  color : option Color_;
  showPalette : bool;
  ctx : option Context
}.

Section Unix.

(** The helpers of the package that the two dialogs call and that are
    defined in other files: the runner of the external-process family,
    the decoder of a string result, the renderers of the title and of the
    button labels, and the colour conversions. *)
Variable Run : option Context -> list string -> option string * option error.
Variable strResult :
  options -> option string -> option error -> string * bool * option error.
Variable appendTitle : list string -> options -> list string.
Variable appendButtons : list string -> options -> list string.
Variable UnparseColor : Color_ -> string.
Variable ParseColor : string -> Color_.

(** [string(out)] for a byte slice: nil converts to the empty string. *)
Definition string_of_bytes (out : option string) : string :=
  match out with Some s => s | None => EmptyString end.

(** The argument vector of the credential dialog. *)
Definition password_args (opts : options) : list string :=
  let args := ["--password"] in
  let args := appendTitle args opts in
  let args := appendButtons args opts in
  if username opts then (args ++ ["--username"])%list else args.

(** [password(opts)]: user, password, ok, error. *)
Definition password (opts : options)
  : string * string * bool * option error :=
  let args := password_args opts in
  let (out, err) := Run (ctx opts) args in
  let '(str, ok, err) := strResult opts out err in
  let fallback := (EmptyString, str, ok, err) in
  if ok && username opts then
    match Strings.SplitN (string_of_bytes out) "|" 2 with
    | [user; pw] => (user, pw, true, None)
    | _ => fallback
    end
  else fallback.

(** The argument vector of the colour dialog. *)
Definition selectColor_args (opts : options) : list string :=
  let args := ["--color-selection"] in
  let args := appendTitle args opts in
  let args := match color opts with
              | Some c => (args ++ ["--color"; UnparseColor c])%list
              | None => args
              end in
  if showPalette opts then (args ++ ["--show-palette"])%list else args.

(** [selectColor(opts)]. *)
Definition selectColor (opts : options) : option Color_ * option error :=
  let args := selectColor_args opts in
  let (out, err) := Run (ctx opts) args in
  let '(str, ok, err) := strResult opts out err in
  if ok then (Some (ParseColor str), None) else (None, err).

End Unix.

(** Modelled from the spec: the parser of a list result is defined
    outside the files at hand; the spec has the output of the backend
    parsed with the separator the list was encoded with, that is, split
    on it. *)
Definition parseList (out sep : string) : list string :=
  Strings.Split out sep.

End Zenity.

(* ===================================================================== *)
(** ** Go's [int] *)
(* ===================================================================== *)

(** The width of [int] on the platform the command is built for. *)
Inductive IntSize : Type := Int32 | Int64.

Definition int_bits (a : IntSize) : Z :=
  match a with Int32 => 32 | Int64 => 64 end.

Definition MaxInt (a : IntSize) : Z := 2 ^ (int_bits a - 1) - 1.
Definition MinInt (a : IntSize) : Z := - 2 ^ (int_bits a - 1).

(** A mathematical integer reduced to the two's-complement [int]. *)
Definition int_wrap (a : IntSize) (z : Z) : Z :=
  (z - MinInt a) mod 2 ^ int_bits a + MinInt a.

(* ===================================================================== *)
(** ** The command, [cmd/zenity/main.go] *)
(* ===================================================================== *)

Module Main.

Import Zenity.

(** [unspecified = "\x00"]. *)
Definition unspecified : string := String "000"%char EmptyString.

(** The package variables, in the groups of the source. *)
Record AppOptions : Type := {
  errorDlg : bool;
  infoDlg : bool;
  warningDlg : bool;
  questionDlg : bool;
  entryDlg : bool;
  listDlg : bool;
  passwordDlg : bool;
  fileSelectionDlg : bool;
  colorSelectionDlg : bool;
  notification : bool
}.

Record General : Type := {
  title : string;
  width : Z;
  height : Z;
  okLabel : string;
  cancelLabel : string;
  extraButton : string;
  text : string;
  icon : string;
  multiple : bool
}.

Record Others : Type := {
  (* Message options *)
  noWrap : bool;
  ellipsize : bool;
  defaultCancel : bool;
  (* Entry options *)
  entryText : string;
  hideText : bool;
  (* List options *)
  columns : Z;
  allowEmpty : bool;
  (* File selection options *)
  save : bool;
  directory : bool;
  confirmOverwrite : bool;
  confirmCreate : bool;
  showHidden : bool;
  filename : string;
  fileFilters : list FileFilter;
  (* Color selection options *)
  defaultColor : string;
  showPalette : bool;
  (* Windows specific options *)
  cygpath : bool;
  wslpath : bool
}.

(** The values [setupFlags] leaves in the variables: the defaults given
    to the [flag] package, then the sentinel in the six strings whose
    absence must be detected. *)
Definition setupFlags_app : AppOptions :=
  {| errorDlg := false; infoDlg := false; warningDlg := false;
     questionDlg := false; entryDlg := false; listDlg := false;
     passwordDlg := false; fileSelectionDlg := false;
     colorSelectionDlg := false; notification := false |}.

Definition setupFlags_general : General :=
  {| title := unspecified; width := 0; height := 0;
     okLabel := unspecified; cancelLabel := unspecified;
     extraButton := unspecified; text := unspecified; icon := unspecified;
     multiple := false |}.

Definition setupFlags_others : Others :=
  {| noWrap := false; ellipsize := false; defaultCancel := false;
     entryText := EmptyString; hideText := false;
     columns := 0; allowEmpty := true;
     save := false; directory := false; confirmOverwrite := false;
     confirmCreate := false; showHidden := false;
     filename := EmptyString; fileFilters := [];
     defaultColor := EmptyString; showPalette := false;
     cygpath := false; wslpath := false |}.

(** What [flag.Parse] does for [--name=value] when [name] was registered
    with [flag.StringVar] on one of the general strings: the variable is
    assigned.  [window-icon] and [icon-name] share the variable [icon]. *)
Definition setString (name value : string) (g : General) : General :=
  let upd t ok ca ex tx ic :=
    {| title := t; width := width g; height := height g; okLabel := ok;
       cancelLabel := ca; extraButton := ex; text := tx; icon := ic;
       multiple := multiple g |} in
  let t := title g in let ok := okLabel g in let ca := cancelLabel g in
  let ex := extraButton g in let tx := text g in let ic := icon g in
  if String.eqb name "title" then upd value ok ca ex tx ic
  else if String.eqb name "ok-label" then upd t value ca ex tx ic
  else if String.eqb name "cancel-label" then upd t ok value ex tx ic
  else if String.eqb name "extra-button" then upd t ok ca value tx ic
  else if String.eqb name "text" then upd t ok ca ex value ic
  else if String.eqb name "window-icon" then upd t ok ca ex tx value
  else if String.eqb name "icon-name" then upd t ok ca ex tx value
  else g.

(** The closure [setDefault] of [loadFlags], on the value of the
    variable. *)
Definition setDefault (s val : string) : string :=
  if String.eqb s unspecified then val else s.

(** The first [switch] of [loadFlags]: the defaults per dialog kind. *)
Definition loadDefaults (a : AppOptions) (g : General) : General :=
  let mk t ic tx ok ca :=
    {| title := t; width := width g; height := height g; okLabel := ok;
       cancelLabel := ca; extraButton := extraButton g; text := tx;
       icon := ic; multiple := multiple g |} in
  let t := title g in let ic := icon g in let tx := text g in
  let ok := okLabel g in let ca := cancelLabel g in
  if errorDlg a then
    mk (setDefault t "Error") (setDefault ic "dialog-error")
       (setDefault tx "An error has occurred.") (setDefault ok "OK") ca
  else if infoDlg a then
    mk (setDefault t "Information") (setDefault ic "dialog-information")
       (setDefault tx "All updates are complete.") (setDefault ok "OK") ca
  else if warningDlg a then
    mk (setDefault t "Warning") (setDefault ic "dialog-warning")
       (setDefault tx "Are you sure you want to proceed?")
       (setDefault ok "OK") ca
  else if questionDlg a then
    mk (setDefault t "Question") (setDefault ic "dialog-question")
       (setDefault tx "Are you sure you want to proceed?")
       (setDefault ok "Yes") (setDefault ca "No")
  else if entryDlg a then
    mk (setDefault t "Add a new entry") ic (setDefault tx "Enter new text:")
       (setDefault ok "OK") (setDefault ca "Cancel")
  else if listDlg a then
    mk (setDefault t "Select items from the list") ic
       (setDefault tx "Select items from the list below:")
       (setDefault ok "OK") (setDefault ca "Cancel")
  else if passwordDlg a then
    mk (setDefault t "Type your password") (setDefault ic "dialog-password")
       tx (setDefault ok "OK") (setDefault ca "Cancel")
  else
    mk t ic (setDefault tx EmptyString) ok ca.

(** The [switch icon] of [loadFlags]; a name outside the cases leaves
    [ico] at its zero value. *)
Definition iconOf (icon : string) : DialogIcon :=
  if String.eqb icon "error" || String.eqb icon "dialog-error"
  then ErrorIcon
  else if String.eqb icon "info" || String.eqb icon "dialog-information"
  then InfoIcon
  else if String.eqb icon "question" || String.eqb icon "dialog-question"
  then QuestionIcon
  else if String.eqb icon "important" || String.eqb icon "warning"
          || String.eqb icon "dialog-warning"
  then WarningIcon
  else if String.eqb icon "dialog-password" then PasswordIcon
  else if String.eqb icon EmptyString then NoIcon
  else ZeroIcon.

(** [append(opts, o)] under a condition. *)
Definition when (b : bool) (o : Option) : list Option :=
  if b then [o] else [].

Section Platform.

(** [runtime.GOOS]; the answer of [exec.Command(args...).Output()] for the
    path translators; [zenutil.ParseColor], [zenutil.UnparseColor] and
    [zenutil.LineBreak], which are defined in other files. *)
Variable GOOS : string.
Variable exec_Output : list string -> string * option error.
Variable ParseColor : string -> Color_.
Variable UnparseColor : Color_ -> string.
Variable LineBreak : string.

(** [ingestPath(path)]. *)
Definition ingestPath (o : Others) (path : string) : string :=
  if String.eqb GOOS "windows" && negb (String.eqb path EmptyString) then
    let args :=
      if wslpath o then Some ["wsl"; "wslpath"; "-m"]
      else if cygpath o then Some ["cygpath"; "-C"; "UTF8"; "-m"]
      else None in
    match args with
    | Some args =>
        let (out, err) := exec_Output (args ++ [path])%list in
        match err with
        | None => Strings.TrimNewline out
        | Some _ => path
        end
    | None => path
    end
  else path.

(** [loadFlags()]: the variables after defaulting, and the options. *)
Definition loadFlags (a : AppOptions) (g : General) (o : Others)
  : General * list Option :=
  let g := loadDefaults a g in
  let opts :=
    ( (* General options *)
      when (negb (String.eqb (title g) unspecified)) (Title (title g))
      ++ [Width (width g)]
      ++ [Height (height g)]
      ++ when (negb (String.eqb (okLabel g) unspecified))
              (OKLabel (okLabel g))
      ++ when (negb (String.eqb (cancelLabel g) unspecified))
              (CancelLabel (cancelLabel g))
      ++ when (negb (String.eqb (extraButton g) unspecified))
              (ExtraButton (extraButton g))
      ++ [Icon (iconOf (icon g))]
      (* Message options *)
      ++ when (noWrap o) NoWrap
      ++ when (ellipsize o) Ellipsize
      ++ when (defaultCancel o) DefaultCancel
      (* Entry options *)
      ++ [EntryText (entryText o)]
      ++ when (hideText o) HideText
      (* List options *)
      ++ when (negb (allowEmpty o)) DisallowEmpty
      (* File selection options *)
      ++ when (directory o) Directory
      ++ when (confirmOverwrite o) ConfirmOverwrite
      ++ when (confirmCreate o) ConfirmCreate
      ++ when (showHidden o) ShowHidden
      ++ when (negb (String.eqb (filename o) EmptyString))
              (Filename (ingestPath o (filename o)))
      ++ [FileFilters (fileFilters o)]
      (* Color selection options *)
      ++ when (negb (String.eqb (defaultColor o) EmptyString))
              (Color (ParseColor (defaultColor o)))
      ++ when (showPalette o) ShowPalette )%list in
  (g, opts).

(** What the process has written when it exits, and its exit code. *)
Record Exit : Type := {
  Stdout : string;
  Stderr : string;
  code : Z
}.

Definition exit (c : Z) : Exit :=
  {| Stdout := EmptyString; Stderr := EmptyString; code := c |}.

(** [errResult(err)]; [extraButton] is the package variable. *)
Definition errResult (extraButton : string) (err : option error) : Exit :=
  if IsTimeout err then exit 5
  else match err with
       | Some ErrExtraButton =>
           {| Stdout := extraButton ++ LineBreak; Stderr := EmptyString;
              code := 1 |}
       | Some e =>
           {| Stdout := EmptyString; Stderr := Error e ++ LineBreak;
              code := -1 |}
       | None => exit 0
       end.

(** [okResult(ok, err)]. *)
Definition okResult (extraButton : string) (ok : bool) (err : option error)
  : Exit :=
  match err with
  | Some _ => errResult extraButton err
  | None => if ok then exit 0 else exit 1
  end.

(** [strResult(s, err)]. *)
Definition strResult (extraButton : string) (s : string)
  (err : option error) : Exit :=
  match err with
  | Some _ => errResult extraButton err
  | None =>
      if String.eqb s EmptyString then exit 1
      else {| Stdout := s ++ LineBreak; Stderr := EmptyString; code := 0 |}
  end.

(** [listResult(l, err)]; a nil slice is [None]. *)
Definition listResult (extraButton Separator : string)
  (l : option (list string)) (err : option error) : Exit :=
  match err with
  | Some _ => errResult extraButton err
  | None =>
      match l with
      | None => exit 1
      | Some l =>
          {| Stdout := Strings.Join l Separator ++ LineBreak;
             Stderr := EmptyString; code := 0 |}
      end
  end.

(** [colorResult(c, err)]. *)
Definition colorResult (extraButton : string) (c : option Color_)
  (err : option error) : Exit :=
  match err with
  | Some _ => errResult extraButton err
  | None =>
      match c with
      | None => exit 1
      | Some c =>
          {| Stdout := UnparseColor c ++ LineBreak; Stderr := EmptyString;
             code := 0 |}
      end
  end.

(** [strOKResult(s, ok, err)]. *)
Definition strOKResult (extraButton : string) (s : string) (ok : bool)
  (err : option error) : Exit :=
  match err with
  | Some _ => errResult extraButton err
  | None =>
      if negb ok then exit 1
      else {| Stdout := s ++ LineBreak; Stderr := EmptyString; code := 0 |}
  end.

End Platform.

(** [addColumn(s)] on the counter [columns]: the new counter and the
    error. *)
Definition addColumn (a : IntSize) (s : string) (columns : Z)
  : Z * option error :=
  let columns := int_wrap a (columns + 1) in
  if columns <=? 1 then (columns, None)
  else (columns, Some (ErrorString "multiple columns not supported")).

(** [addColumn] called once per [--column] value, in order, from a given
    counter: the errors returned and the final counter. *)
Fixpoint addColumns (a : IntSize) (ss : list string) (columns : Z)
  : list (option error) * Z :=
  match ss with
  | [] => ([], columns)
  | s :: rest =>
      let (columns, err) := addColumn a s columns in
      let (errs, final) := addColumns a rest columns in
      (err :: errs, final)
  end.

(** The beginning of [main]: [zenutil.Command = true], and a context with
    a deadline when [zenutil.Timeout > 0].  [now] is the instant of the
    call, in nanoseconds, as is the duration. *)
Definition Second : Z := 1000000000.

Definition main_context (now Timeout : Z) : bool * option Context :=
  let Command := true in
  if 0 <? Timeout
  then (Command, Some (WithTimeout now (int_wrap Int64 (Timeout * Second))))
  else (Command, None).

(** The dialog function [main] calls in its [switch], with the
    arguments it passes: the text for the kinds that take one, the
    remaining command-line arguments as the items of a list, and the
    options.  [Usage] is the fall-through to [flag.Usage()]. *)
Inductive Call : Type :=
| CallError (text : string) (opts : list Option)
| CallInfo (text : string) (opts : list Option)
| CallWarning (text : string) (opts : list Option)
| CallQuestion (text : string) (opts : list Option)
| CallEntry (text : string) (opts : list Option)
| CallListMultiple (text : string) (items : list string)
                   (opts : list Option)
| CallList (text : string) (items : list string) (opts : list Option)
| CallPassword (opts : list Option)
| CallSelectFile (opts : list Option)
| CallSelectFileSave (opts : list Option)
| CallSelectFileMutiple (opts : list Option)
| CallSelectColor (opts : list Option)
| CallNotify (text : string) (opts : list Option)
| Usage.

(** The [switch] of [main], on the variables as [loadFlags] left them. *)
Definition dispatch (a : AppOptions) (g : General) (o : Others)
  (args : list string) (opts : list Option) : Call :=
  if errorDlg a then CallError (text g) opts
  else if infoDlg a then CallInfo (text g) opts
  else if warningDlg a then CallWarning (text g) opts
  else if questionDlg a then CallQuestion (text g) opts
  else if entryDlg a then CallEntry (text g) opts
  else if listDlg a then
    if multiple g then CallListMultiple (text g) args opts
    else CallList (text g) args opts
  else if passwordDlg a then CallPassword opts
  else if fileSelectionDlg a then
    if save o then CallSelectFileSave opts
    else if multiple g then CallSelectFileMutiple opts
    else CallSelectFile opts
  else if colorSelectionDlg a then CallSelectColor opts
  else if notification a then CallNotify (text g) opts
  else Usage.

(** The text a call carries, if its dialog takes one. *)
Definition call_text (c : Call) : option string :=
  match c with
  | CallError t _ | CallInfo t _ | CallWarning t _ | CallQuestion t _
  | CallEntry t _ | CallListMultiple t _ _ | CallList t _ _
  | CallNotify t _ => Some t
  | _ => None
  end.

Section Request.

Variable GOOS : string.
Variable exec_Output : list string -> string * option error.
Variable ParseColor : string -> Color_.

(** [main] up to the call of the dialog: [loadFlags], the context option
    appended when a timeout is set, and the [switch]. *)
Definition main_call (now Timeout : Z) (a : AppOptions) (g : General)
  (o : Others) (args : list string) : Call :=
  let (g, opts) := loadFlags GOOS exec_Output ParseColor a g o in
  let opts := match snd (main_context now Timeout) with
              | Some ctx => (opts ++ [Context_ ctx])%list
              | None => opts
              end in
  dispatch a g o args opts.

End Request.

(** [validateFlags()]: the dialog kinds that were asked for are counted;
    unless there is exactly one, [flag.Usage()] ends the process, which
    [init] has made exit with code -1.  [Some c]: the process exits with
    code [c]; [None]: the function returns. *)
Definition incr_if (b : bool) (n : Z) : Z := if b then n + 1 else n.

Definition kinds_set (a : AppOptions) : Z :=
  let n := 0 in
  let n := incr_if (errorDlg a) n in
  let n := incr_if (infoDlg a) n in
  let n := incr_if (warningDlg a) n in
  let n := incr_if (questionDlg a) n in
  let n := incr_if (entryDlg a) n in
  let n := incr_if (listDlg a) n in
  let n := incr_if (passwordDlg a) n in
  let n := incr_if (fileSelectionDlg a) n in
  let n := incr_if (colorSelectionDlg a) n in
  let n := incr_if (notification a) n in
  n.

Definition validateFlags (a : AppOptions) : option Z :=
  if negb (kinds_set a =? 1) then Some (-1) else None.

(** [filepath.ToSlash(path)] where the separator is the backslash, as it
    is on Windows. *)
Fixpoint ToSlash (path : string) : string :=
  match path with
  | EmptyString => EmptyString
  | String c rest =>
      String (if Ascii.eqb c "092"%char then "/"%char else c) (ToSlash rest)
  end.

Section Paths.

Variable GOOS : string.
Variable exec_Output : list string -> string * option error.

(** [egestPath(path, err)]. *)
Definition egestPath (o : Others) (path : string) (err : option error)
  : string * option error :=
  if String.eqb GOOS "windows" && negb (String.eqb path EmptyString)
     && match err with None => true | Some _ => false end
  then
    let args :=
      if wslpath o then Some ["wsl"; "wslpath"; "-u"]
      else if cygpath o then Some ["cygpath"; "-C"; "UTF8"; "-u"]
      else None in
    match args with
    | Some args =>
        let (out, err) := exec_Output (args ++ [ToSlash path])%list in
        match err with
        | None => (Strings.TrimNewline out, err)
        | Some _ => (path, err)
        end
    | None => (path, err)
    end
  else (path, err).

(** The loop of [egestPaths] over the copy of the slice: it stops at the
    first error, leaving the remaining paths as they are. *)
Fixpoint egestLoop (o : Others) (paths : list string)
  : list string * option error :=
  match paths with
  | [] => ([], None)
  | p :: rest =>
      let (p', err) := egestPath o p None in
      match err with
      | Some _ => (p' :: rest, err)
      | None =>
          let (rest', err') := egestLoop o rest in
          (p' :: rest', err')
      end
  end.

(** [egestPaths(paths, err)]; a nil slice is [None], and the copy of a
    nil slice is nil. *)
Definition egestPaths (o : Others) (paths : option (list string))
  (err : option error) : option (list string) * option error :=
  if String.eqb GOOS "windows"
     && match err with None => true | Some _ => false end
     && (wslpath o || cygpath o)
  then
    match paths with
    | None => (None, err)
    | Some l => let (l', err') := egestLoop o l in (Some l', err')
    end
  else (paths, err).

End Paths.

Section Filters.

(** [strings.TrimSpace], of Go's library. *)
Variable TrimSpace : string -> string.

(** The text [addFileFilter] takes the patterns from: what follows the
    first vertical bar, or the whole argument when it has none. *)
Definition filter_parts (s : string) : option string * string :=
  match Strings.SplitN s "|" 2 with
  | name :: rest :: _ => (Some name, rest)
  | _ => (None, s)
  end.

(** [addFileFilter(s)] on the variable [fileFilters]: the new list and
    the error. *)
Definition addFileFilter (s : string) (fileFilters : list FileFilter)
  : list FileFilter * option error :=
  let (name, s) := filter_parts s in
  let filter :=
    {| Name := match name with
               | Some n => TrimSpace n
               | None => EmptyString
               end;
       Patterns := Strings.Split (TrimSpace s) " " |} in
  ((fileFilters ++ [filter])%list, None).

End Filters.

End Main.

(* ===================================================================== *)
(** ** Concrete worlds and inputs *)
(* ===================================================================== *)

Module Samples.

Import Zenutil.

(** The line break of Unix. *)
Definition LF : string := String "010"%char EmptyString.

(** No path translation: not Windows. *)
Definition no_exec (_ : list string) : string * option error :=
  (EmptyString, Some (SysError "not found" false)).

(** A colour parser that knows one colour. *)
Definition parse_black (_ : string) : Zenity.Color_ := (0, 0, 0, 255).
Definition unparse_black (_ : Zenity.Color_) : string := "#000000".

(** The application options of [zenity --entry] and of
    [zenity --password]. *)
Definition entry_only : Main.AppOptions :=
  {| Main.errorDlg := false; Main.infoDlg := false;
     Main.warningDlg := false; Main.questionDlg := false;
     Main.entryDlg := true; Main.listDlg := false;
     Main.passwordDlg := false; Main.fileSelectionDlg := false;
     Main.colorSelectionDlg := false; Main.notification := false |}.

Definition password_only : Main.AppOptions :=
  {| Main.errorDlg := false; Main.infoDlg := false;
     Main.warningDlg := false; Main.questionDlg := false;
     Main.entryDlg := false; Main.listDlg := false;
     Main.passwordDlg := true; Main.fileSelectionDlg := false;
     Main.colorSelectionDlg := false; Main.notification := false |}.

(** Options of a credential dialog that asks for the user name. *)
Definition with_username : Zenity.options :=
  {| Zenity.title := None; Zenity.okLabel := None;
     Zenity.cancelLabel := None; Zenity.extraButton := None;
     Zenity.username := true; Zenity.color := None;
     Zenity.showPalette := false; Zenity.ctx := None |}.

(** A backend that prints a fixed output and exits with status 0. *)
Definition prints (output : string) (_ : option Context)
  (_ : list string) : option string * option error :=
  (Some output, None).

(** A decoder of a string result for the examples: with a nil error the
    value is the output without the line break that ends it; with an
    error there is no value. *)
Definition decode_line (_ : Zenity.options) (out : option string)
  (err : option error) : string * bool * option error :=
  match err with
  | None => (Strings.TrimNewline (Zenity.string_of_bytes out), true, None)
  | Some e => (EmptyString, false, Some e)
  end.

(** Renderers of the title and of the buttons that add nothing. *)
Definition no_flags (args : list string) (_ : Zenity.options)
  : list string := args.

(** A notification payload. *)
Definition hello : Data :=
  DataNotify {| n_Text := "hello";
                n_Options := {| no_Title := Some "zenity";
                                no_Subtitle := EmptyString |} |}.

(** A template engine that renders every script to one fixed text. *)
Definition render_ok (script : string) (_ : Data) : string * option error :=
  ("display notification", None).

(** A template engine that fails after writing part of the text. *)
Definition render_fails (script : string) (_ : Data)
  : string * option error :=
  ("display", Some (ErrorString "template: no such template")).

(** The child prints [ok] and exits with status 0. *)
Definition child_ok (_ : Cmd) : option string * option error :=
  (Some "ok", None).

(** A machine where the interpreter is installed and every step of the
    fast path succeeds; a child process, if one is run, returns at instant
    1, and the context is inspected two instants later. *)
Definition mac : World :=
  {| ExecuteTemplate := render_ok;
     LookPath := fun _ => Some "/usr/bin/osascript";
     TempFile_ok := true; Remove_ok := true; WriteString_ok := true;
     Seek_ok := true; Dup2_ok := true; StderrClose_ok := true;
     Exec_ok := true;
     Output := child_ok;
     t_output := 1; d_check := 2; d_reread := 0 |}.

(** The same machine when no temporary file can be created. *)
Definition mac_no_tmp : World :=
  {| ExecuteTemplate := render_ok;
     LookPath := fun _ => Some "/usr/bin/osascript";
     TempFile_ok := false; Remove_ok := true; WriteString_ok := true;
     Seek_ok := true; Dup2_ok := true; StderrClose_ok := true;
     Exec_ok := true;
     Output := child_ok;
     t_output := 1; d_check := 2; d_reread := 0 |}.

(** The same machine with a template that does not render. *)
Definition mac_bad_template : World :=
  {| ExecuteTemplate := render_fails;
     LookPath := fun _ => Some "/usr/bin/osascript";
     TempFile_ok := true; Remove_ok := true; WriteString_ok := true;
     Seek_ok := true; Dup2_ok := true; StderrClose_ok := true;
     Exec_ok := true;
     Output := child_ok;
     t_output := 1; d_check := 2; d_reread := 0 |}.

(** The command built for a child of these machines. *)
Definition osascript (ctx : option Context) : Cmd :=
  {| cmd_ctx := ctx; cmd_name := "osascript";
     cmd_args := ["-l"; "JavaScript"];
     cmd_Stdin := "display notification" |}.

(** A context whose deadline falls at instant 2: after the child of [mac]
    has returned (1), before the context is inspected (3). *)
Definition deadline_2 : Context := WithTimeout 0 2.

(** A context whose deadline falls at instant 10, after the inspection. *)
Definition deadline_10 : Context := WithTimeout 0 10.

(** Windows with Cygwin: the application options ask for [cygpath]. *)
Definition with_cygpath : Main.Others :=
  {| Main.noWrap := false; Main.ellipsize := false;
     Main.defaultCancel := false;
     Main.entryText := EmptyString; Main.hideText := false;
     Main.columns := 0; Main.allowEmpty := true;
     Main.save := false; Main.directory := false;
     Main.confirmOverwrite := false; Main.confirmCreate := false;
     Main.showHidden := false;
     Main.filename := EmptyString; Main.fileFilters := [];
     Main.defaultColor := EmptyString; Main.showPalette := false;
     Main.cygpath := true; Main.wslpath := false |}.

(** A translator that answers every path with one line. *)
Definition cygpath_ok (_ : list string) : string * option error :=
  ("/cygdrive/c/tmp" ++ LF, None).

(** A translator that is not installed. *)
Definition cygpath_missing (_ : list string) : string * option error :=
  (EmptyString, Some (SysError "executable file not found" false)).

(** A trimmer for the examples that removes nothing. *)
Definition trim_nothing (s : string) : string := s.

(** A dialog with two buttons and no extra one. *)
Definition two_buttons : Dialog :=
  {| d_Operation := "displayDialog"; d_Text := "Proceed?";
     d_Extra := None;
     d_Options :=
       {| do_Message := EmptyString; do_As := EmptyString;
          do_Answer := None; do_Hidden := false; do_Title := None;
          do_Icon := EmptyString; do_Buttons := []; do_Cancel := 0;
          do_Default := 0; do_Timeout := 0 |} |}.

(** A machine without the interpreter on the search path. *)
Definition mac_no_osascript : World :=
  {| ExecuteTemplate := render_ok;
     LookPath := fun _ => None;
     TempFile_ok := true; Remove_ok := true; WriteString_ok := true;
     Seek_ok := true; Dup2_ok := true; StderrClose_ok := true;
     Exec_ok := true;
     Output := child_ok;
     t_output := 1; d_check := 2; d_reread := 0 |}.

(** Options of a credential dialog that does not ask for the user
    name. *)
Definition without_username : Zenity.options :=
  {| Zenity.title := None; Zenity.okLabel := None;
     Zenity.cancelLabel := None; Zenity.extraButton := None;
     Zenity.username := false; Zenity.color := None;
     Zenity.showPalette := false; Zenity.ctx := None |}.

End Samples.

(* ===================================================================== *)
(** ** The scripting-bridge runner *)
(* ===================================================================== *)

Section RunFacts.

Import Zenutil.

(** Unfolding [Run] once the template has been rendered. *)
Lemma Run_rendered w Command ctx script data buf :
  ExecuteTemplate w script data = (buf, None) ->
  Run w Command ctx script data =
  let fast := fast_path w Command buf in
  match snd fast with
  | Some replaced => (fst fast, replaced)
  | None =>
      let cmd := {| cmd_ctx := ctx; cmd_name := "osascript";
                    cmd_args := osascript_args; cmd_Stdin := buf |} in
      ((fst fast ++ [EvSpawn cmd])%list,
       Returned (fst (Output w cmd))
         (match ctx with
          | Some c =>
              let t1 := t_output w + Z.of_nat (d_check w) in
              match Context_Err c t1 with
              | Some _ => Context_Err c (t1 + Z.of_nat (d_reread w))
              | None => snd (Output w cmd)
              end
          | None => snd (Output w cmd)
          end))
  end.
Proof.
  intros Htmpl. unfold Run. rewrite Htmpl. cbv zeta.
  destruct (snd (fast_path w Command buf)); [reflexivity|].
  destruct ctx as [c|]; unfold set_Stdin, CommandContext, Command_; cbn;
    match goal with |- context [Output w ?c] => destruct (Output w c) end;
    reflexivity.
Qed.

(** The fast path runs no child: its trace holds no [EvSpawn]. *)
Lemma exec_replace_no_spawn w script c :
  ~ In (EvSpawn c) (fst (exec_replace w script)).
Proof.
  unfold exec_replace.
  destruct (LookPath w "osascript"); cbn; [|tauto].
  destruct (TempFile_ok w), (Remove_ok w), (WriteString_ok w), (Seek_ok w),
    (Dup2_ok w), (StderrClose_ok w), (Exec_ok w); cbn;
    intuition discriminate.
Qed.

(** When the fast path replaces the image, it is with the fixed argument
    vector and with the script as standard input. *)
Lemma exec_replace_taken w script r :
  snd (exec_replace w script) = Some r ->
  exists path,
    LookPath w "osascript" = Some path /\
    r = Replaced path ["osascript"; "-l"; "JavaScript"] script /\
    In (EvExec path ["osascript"; "-l"; "JavaScript"])
       (fst (exec_replace w script)).
Proof.
  unfold exec_replace.
  destruct (LookPath w "osascript") as [path|]; cbn; [|discriminate].
  destruct (TempFile_ok w), (Remove_ok w), (WriteString_ok w), (Seek_ok w),
    (Dup2_ok w), (StderrClose_ok w), (Exec_ok w); cbn; try discriminate.
  intros [= <-]. exists path. repeat split. cbn. tauto.
Qed.

(** A context that has fired stays fired, with the same error. *)
Lemma Context_Err_stable c t e d :
  Context_Err c t = Some e -> Context_Err c (t + Z.of_nat d) = Some e.
Proof.
  unfold Context_Err. destruct (done_at c) as [t0|]; [|discriminate].
  destruct (Z.leb_spec t0 t); [|discriminate]. intros [= <-].
  destruct (Z.leb_spec t0 (t + Z.of_nat d)); [reflexivity | lia].
Qed.

(** What a context reports is a context error, and no process error. *)
Lemma Context_Err_kind c t e :
  Context_Err c t = Some e ->
  is_context_error e = true /\ is_process_error e = false.
Proof.
  unfold Context_Err. destruct (done_at c) as [t0|]; [|discriminate].
  destruct (t0 <=? t); [|discriminate]. intros [= <-].
  destruct (done_err c); split; reflexivity.
Qed.

End RunFacts.

Section RunClaims.

Import Zenutil Samples.

(** C1, as stated, fails: on [mac] the child exits with status 0 and its
    output [ok] at instant 1, the deadline of the context falls at
    instant 2, after the exit, and [Run], which reads [ctx.Err()] at
    instant 3, returns the deadline error with the output instead of the
    success. *)
Lemma C1_success_lost_after_exit :
  Output mac (osascript (Some deadline_2)) = (Some "ok", None) /\
  Context_Err deadline_2 (t_output mac) = None /\
  Run mac false (Some deadline_2) "notify" hello =
    ([EvSpawn (osascript (Some deadline_2))],
     Returned (Some "ok") (Some DeadlineExceeded)) /\
  snd (Run mac false (Some deadline_2) "notify" hello) <>
    Returned (Some "ok") None.
Proof. repeat split. discriminate. Qed.

(** C1, amended: for a call with a context that runs the child (the
    template rendered, the process image not replaced), what is returned
    is decided by the context at the instant [Run] reads it, after
    [cmd.Output()] has returned.  If the context has not fired by then,
    the output and the error of the child are returned unchanged, so a
    success stays a success.  If it has fired by then, the output is
    returned with the error of the context, never with a nil error, and
    that error is one of the two context errors and none of the errors of
    the process. *)
Theorem C1_Run_result_follows_context_at_check
  w Command c script data buf :
  ExecuteTemplate w script data = (buf, None) ->
  snd (fast_path w Command buf) = None ->
  let cmd := {| cmd_ctx := Some c; cmd_name := "osascript";
                cmd_args := osascript_args; cmd_Stdin := buf |} in
  let t_check := t_output w + Z.of_nat (d_check w) in
  (Context_Err c t_check = None ->
   snd (Run w Command (Some c) script data) =
     Returned (fst (Output w cmd)) (snd (Output w cmd))) /\
  (forall e, Context_Err c t_check = Some e ->
   snd (Run w Command (Some c) script data) =
     Returned (fst (Output w cmd)) (Some e) /\
   is_context_error e = true /\ is_process_error e = false).
Proof.
  intros Htmpl Hfast cmd t_check.
  rewrite (Run_rendered _ _ _ _ _ _ Htmpl). cbv zeta. rewrite Hfast. cbn [snd].
  fold cmd. fold t_check. split.
  - intros ->. reflexivity.
  - intros e He. rewrite He.
    rewrite (Context_Err_stable _ _ _ (d_reread w) He).
    split; [reflexivity | exact (Context_Err_kind _ _ _ He)].
Qed.

(** The amended C1 at work: with the deadline at instant 10 the success
    of the child of [mac] is returned; with the deadline at instant 2 the
    deadline error is. *)
Lemma C1_Run_result_follows_context_at_check_witness :
  snd (Run mac false (Some deadline_10) "notify" hello) =
    Returned (Some "ok") None /\
  snd (Run mac false (Some deadline_2) "notify" hello) =
    Returned (Some "ok") (Some DeadlineExceeded).
Proof.
  split.
  - apply (proj1 (C1_Run_result_follows_context_at_check
                    mac false deadline_10 "notify" hello
                    "display notification" eq_refl eq_refl)).
    reflexivity.
  - apply (proj2 (C1_Run_result_follows_context_at_check
                    mac false deadline_2 "notify" hello
                    "display notification" eq_refl eq_refl)
                 DeadlineExceeded).
    reflexivity.
Defined.

(** C2, as stated, fails: the command sets [Command] and, with
    [--timeout 5], a context with a deadline; on [mac] the fast path is
    taken all the same, and the process image is replaced. *)
Lemma C2_exec_replace_with_context :
  Main.main_context 0 5 = (true, Some (WithTimeout 0 5000000000)) /\
  Run mac true (Some (WithTimeout 0 5000000000)) "notify" hello =
    ([EvTempFile; EvRemove; EvWriteString "display notification"; EvSeek;
      EvDup2Stdin; EvCloseStderr;
      EvExec "/usr/bin/osascript" ["osascript"; "-l"; "JavaScript"]],
     Replaced "/usr/bin/osascript" ["osascript"; "-l"; "JavaScript"]
       "display notification").
Proof. split; reflexivity. Qed.

(** C2, amended: in command mode the fast path is attempted whether or
    not a context is present.  When the interpreter is found and every
    step succeeds (the temporary file is created, unlinked, written,
    rewound, made the standard input, the error stream is closed and
    [syscall.Exec] succeeds), the process image is replaced, with any
    context and with none.  Only when a step fails is a child run: it is
    built with the context when there is one (and so cancellable),
    without one otherwise, and it is the only child. *)
Theorem C2_fast_path_ignores_context w ctx script data buf :
  ExecuteTemplate w script data = (buf, None) ->
  (forall path,
     LookPath w "osascript" = Some path ->
     TempFile_ok w = true -> Remove_ok w = true ->
     WriteString_ok w = true -> Seek_ok w = true -> Dup2_ok w = true ->
     StderrClose_ok w = true -> Exec_ok w = true ->
     Run w true ctx script data =
       ([EvTempFile; EvRemove; EvWriteString buf; EvSeek; EvDup2Stdin;
         EvCloseStderr; EvExec path ["osascript"; "-l"; "JavaScript"]],
        Replaced path ["osascript"; "-l"; "JavaScript"] buf)) /\
  (LookPath w "osascript" = None \/ TempFile_ok w = false \/
   Remove_ok w = false \/ WriteString_ok w = false \/ Seek_ok w = false \/
   Dup2_ok w = false \/ StderrClose_ok w = false \/ Exec_ok w = false ->
   let cmd := {| cmd_ctx := ctx; cmd_name := "osascript";
                 cmd_args := ["-l"; "JavaScript"]; cmd_Stdin := buf |} in
   exists before err,
     Run w true ctx script data =
       ((before ++ [EvSpawn cmd])%list,
        Returned (fst (Output w cmd)) err) /\
     (forall c, ~ In (EvSpawn c) before) /\
     (ctx = None -> err = snd (Output w cmd))).
Proof.
  intros Htmpl. rewrite (Run_rendered _ _ _ _ _ _ Htmpl). cbv zeta.
  unfold fast_path. split.
  - intros path Hpath Htmp Hrm Hwr Hseek Hdup Hclose Hexec.
    unfold exec_replace.
    rewrite Hpath, Htmp, Hrm, Hwr, Hseek, Hdup, Hclose, Hexec.
    reflexivity.
  - intros Hfail.
    assert (Hnone : snd (exec_replace w buf) = None).
    { unfold exec_replace.
      destruct (LookPath w "osascript") as [path|]; [|reflexivity].
      destruct (TempFile_ok w), (Remove_ok w), (WriteString_ok w),
        (Seek_ok w), (Dup2_ok w), (StderrClose_ok w), (Exec_ok w);
        try reflexivity.
      exfalso. intuition discriminate. }
    rewrite Hnone. eexists. eexists. split; [reflexivity|].
    split; [intros c; apply exec_replace_no_spawn|].
    intros ->. reflexivity.
Qed.

(** The amended C2 at work: on [mac] the image is replaced although the
    call carries a context; when no temporary file can be made, a child
    is run with that context. *)
Lemma C2_fast_path_ignores_context_witness :
  Run mac true (Some deadline_2) "notify" hello =
    ([EvTempFile; EvRemove; EvWriteString "display notification"; EvSeek;
      EvDup2Stdin; EvCloseStderr;
      EvExec "/usr/bin/osascript" ["osascript"; "-l"; "JavaScript"]],
     Replaced "/usr/bin/osascript" ["osascript"; "-l"; "JavaScript"]
       "display notification") /\
  (exists before err,
     Run mac_no_tmp true (Some deadline_2) "notify" hello =
       ((before ++ [EvSpawn (osascript (Some deadline_2))])%list,
        Returned (fst (Output mac_no_tmp (osascript (Some deadline_2))))
          err) /\
     (forall c, ~ In (EvSpawn c) before) /\
     (Some deadline_2 = None ->
      err = snd (Output mac_no_tmp (osascript (Some deadline_2))))).
Proof.
  split.
  - exact (proj1 (C2_fast_path_ignores_context
             mac (Some deadline_2) "notify" hello "display notification"
             eq_refl) "/usr/bin/osascript" eq_refl eq_refl eq_refl eq_refl
             eq_refl eq_refl eq_refl eq_refl).
  - exact (proj2 (C2_fast_path_ignores_context
             mac_no_tmp (Some deadline_2) "notify" hello
             "display notification" eq_refl)
             (or_intror (or_introl eq_refl))).
Defined.

(** C7: every child process that [Run] runs is the interpreter
    [osascript] with the argument vector [-l JavaScript], whatever the
    script, the payload and the context; the rendered script is its
    standard input and is no part of the arguments. *)
Theorem C7_script_on_stdin_fixed_arguments
  w Command ctx script data c :
  In (EvSpawn c) (fst (Run w Command ctx script data)) ->
  cmd_name c = "osascript" /\
  cmd_args c = ["-l"; "JavaScript"] /\
  cmd_Stdin c = fst (ExecuteTemplate w script data) /\
  cmd_ctx c = ctx.
Proof.
  destruct (ExecuteTemplate w script data) as [buf [e|]] eqn:Htmpl.
  - unfold Run. rewrite Htmpl. cbn. tauto.
  - rewrite (Run_rendered _ _ _ _ _ _ Htmpl). cbv zeta.
    unfold fast_path. destruct Command.
    + destruct (snd (exec_replace w buf)) eqn:Hfast; cbn [fst snd].
      * intros Hin. destruct (exec_replace_no_spawn _ _ _ Hin).
      * rewrite in_app_iff. intros [Hin | [[= <-] | []]].
        -- destruct (exec_replace_no_spawn _ _ _ Hin).
        -- repeat split.
    + cbn. intros [[= <-] | []]. repeat split.
Qed.

(** C7 at work on [mac], outside command mode. *)
Lemma C7_script_on_stdin_fixed_arguments_witness :
  let c := osascript None in
  In (EvSpawn c) (fst (Run mac false None "notify" hello)) /\
  cmd_name c = "osascript" /\
  cmd_args c = ["-l"; "JavaScript"] /\
  cmd_Stdin c = "display notification" /\
  cmd_ctx c = None.
Proof.
  assert (H : In (EvSpawn (osascript None))
                 (fst (Run mac false None "notify" hello)))
    by (left; reflexivity).
  split; [exact H|].
  exact (C7_script_on_stdin_fixed_arguments mac false None "notify" hello
           (osascript None) H).
Defined.

(** C8: when the template does not render, [Run] returns the error of
    the template engine with a nil output at once: no step of the fast
    path is taken, no [syscall.Exec], no child process. *)
Theorem C8_template_error_returned_at_once
  w Command ctx script data buf e :
  ExecuteTemplate w script data = (buf, Some e) ->
  Run w Command ctx script data = ([], Returned None (Some e)).
Proof. intros Htmpl. unfold Run. rewrite Htmpl. reflexivity. Qed.

(** C8 at work: command mode, every step of the fast path available. *)
Lemma C8_template_error_returned_at_once_witness :
  Run mac_bad_template true (Some deadline_2) "notify" hello =
    ([], Returned None (Some (ErrorString "template: no such template"))).
Proof.
  exact (C8_template_error_returned_at_once mac_bad_template true
           (Some deadline_2) "notify" hello "display"
           (ErrorString "template: no such template") eq_refl).
Defined.

End RunClaims.

(* ===================================================================== *)
(** ** The column counter *)
(* ===================================================================== *)

Section Columns.

Import Main.

(** Within the range of [int] nothing wraps. *)
Lemma int_wrap_in_range a z :
  MinInt a <= z <= MaxInt a -> int_wrap a z = z.
Proof.
  unfold int_wrap, MinInt, MaxInt. intros H.
  rewrite Z.mod_small; [lia|].
  destruct a; cbn in *; lia.
Qed.

Lemma MaxInt_pos a : 1 < MaxInt a.
Proof. destruct a; reflexivity. Qed.

Lemma MinInt_neg a : MinInt a < 0.
Proof. destruct a; reflexivity. Qed.

(** Once a column has been counted, every further one is an error, as
    long as the counter stays in range. *)
Lemma addColumns_after_first a ss c :
  1 <= c -> c + Z.of_nat (length ss) <= MaxInt a ->
  addColumns a ss c =
    (map (fun _ => Some (ErrorString "multiple columns not supported")) ss,
     c + Z.of_nat (length ss)).
Proof.
  revert c. induction ss as [|s rest IH]; intros c Hc Hmax.
  - cbn. f_equal. lia.
  - cbn [addColumns addColumn length map]. cbn [length] in Hmax.
    pose proof (MinInt_neg a).
    unfold addColumn. rewrite int_wrap_in_range by lia.
    destruct (Z.leb_spec (c + 1) 1); [lia|].
    rewrite IH by lia. f_equal. lia.
Qed.

(** C3: counting the [--column] values of a command line from the
    initial counter 0, the first addition returns no error and every
    later one returns the error [multiple columns not supported]; with no
    or one column nothing is rejected.  The values are elements of a Go
    slice, whose length is an [int]. *)
Theorem C3_second_column_rejected a ss :
  Z.of_nat (length ss) <= MaxInt a ->
  fst (addColumns a ss (columns setupFlags_others)) =
    match ss with
    | [] => []
    | _ :: rest =>
        None ::
        map (fun _ => Some (ErrorString "multiple columns not supported"))
            rest
    end.
Proof.
  intros Hlen. destruct ss as [|s rest]; [reflexivity|].
  cbn [addColumns addColumn columns setupFlags_others]. cbn [length] in Hlen.
  pose proof (MinInt_neg a). pose proof (MaxInt_pos a).
  unfold addColumn. rewrite int_wrap_in_range by lia.
  change (0 + 1 <=? 1) with true. cbv iota.
  rewrite addColumns_after_first by lia. reflexivity.
Qed.

(** C3 at work: three columns on a 64-bit platform. *)
Lemma C3_second_column_rejected_witness :
  fst (addColumns Int64 ["Name"; "Size"; "Date"] 0) =
    [None;
     Some (ErrorString "multiple columns not supported");
     Some (ErrorString "multiple columns not supported")].
Proof.
  apply (C3_second_column_rejected Int64 ["Name"; "Size"; "Date"]).
  vm_compute. discriminate.
Defined.

End Columns.

(* ===================================================================== *)
(** ** Results and exit codes of the command *)
(* ===================================================================== *)

Section ExitCodes.

Import Main Samples.

(** C4, as stated, fails: the extra button and the absence of a selection
    end the process with the same exit code, 1. *)
Lemma C4_extra_button_and_no_selection_share_code :
  code (errResult LF "Later" (Some ErrExtraButton)) = 1 /\
  code (strOKResult LF "Later" EmptyString false None) = 1 /\
  code (strResult LF "Later" EmptyString None) = 1 /\
  code (errResult LF "Later" (Some ErrExtraButton)) =
  code (strOKResult LF "Later" EmptyString false None).
Proof. repeat split. Qed.

(** C4, amended: a timeout ends the process with code 5 and prints
    nothing; the extra button ends it with code 1 after its label and a
    line break on standard output; any other error ends it with code -1
    after its message and a line break on the error stream; the absence
    of a selection ends it with code 1 and prints nothing, so that it
    shares the code of the extra button and differs from it by the
    output; a value ends it with code 0 after the value and a line break
    on standard output.  The result printers hand every error to
    [errResult]. *)
Theorem C4_exit_codes
  (LineBreak extraButton Separator : string)
  (UnparseColor : Zenity.Color_ -> string) :
  (forall err, IsTimeout err = true ->
     errResult LineBreak extraButton err = exit 5) /\
  errResult LineBreak extraButton (Some ErrExtraButton) =
    {| Stdout := extraButton ++ LineBreak; Stderr := EmptyString;
       code := 1 |} /\
  (forall e, IsTimeout (Some e) = false -> e <> ErrExtraButton ->
     errResult LineBreak extraButton (Some e) =
       {| Stdout := EmptyString; Stderr := Error e ++ LineBreak;
          code := -1 |}) /\
  (forall e s ok l c,
     okResult LineBreak extraButton ok (Some e) =
       errResult LineBreak extraButton (Some e) /\
     strResult LineBreak extraButton s (Some e) =
       errResult LineBreak extraButton (Some e) /\
     strOKResult LineBreak extraButton s ok (Some e) =
       errResult LineBreak extraButton (Some e) /\
     listResult LineBreak extraButton Separator l (Some e) =
       errResult LineBreak extraButton (Some e) /\
     colorResult UnparseColor LineBreak extraButton c (Some e) =
       errResult LineBreak extraButton (Some e)) /\
  (okResult LineBreak extraButton false None = exit 1 /\
   strResult LineBreak extraButton EmptyString None = exit 1 /\
   (forall s, strOKResult LineBreak extraButton s false None = exit 1) /\
   listResult LineBreak extraButton Separator None None = exit 1 /\
   colorResult UnparseColor LineBreak extraButton None None = exit 1) /\
  (okResult LineBreak extraButton true None = exit 0 /\
   (forall s, s <> EmptyString ->
      strResult LineBreak extraButton s None =
        {| Stdout := s ++ LineBreak; Stderr := EmptyString; code := 0 |}) /\
   (forall s,
      strOKResult LineBreak extraButton s true None =
        {| Stdout := s ++ LineBreak; Stderr := EmptyString; code := 0 |}) /\
   (forall l,
      listResult LineBreak extraButton Separator (Some l) None =
        {| Stdout := Strings.Join l Separator ++ LineBreak;
           Stderr := EmptyString; code := 0 |}) /\
   (forall c,
      colorResult UnparseColor LineBreak extraButton (Some c) None =
        {| Stdout := UnparseColor c ++ LineBreak; Stderr := EmptyString;
           code := 0 |})).
Proof.
  repeat split.
  - intros err H. unfold errResult. rewrite H. reflexivity.
  - intros e Ht Hx. unfold errResult. rewrite Ht.
    destruct e; try reflexivity. contradiction.
  - intros s Hs. unfold strResult.
    destruct (String.eqb_spec s EmptyString); [contradiction | reflexivity].
Qed.

(** The amended C4 at work: the four ends of a run on Unix. *)
Lemma C4_exit_codes_witness :
  errResult LF "Later" (Some DeadlineExceeded) = exit 5 /\
  errResult LF "Later" (Some ErrExtraButton) =
    {| Stdout := "Later" ++ LF; Stderr := EmptyString; code := 1 |} /\
  errResult LF "Later" (Some (ExitError 3 "exit status 3")) =
    {| Stdout := EmptyString; Stderr := "exit status 3" ++ LF;
       code := -1 |} /\
  strResult LF "Later" "/tmp/a.txt" None =
    {| Stdout := "/tmp/a.txt" ++ LF; Stderr := EmptyString; code := 0 |}.
Proof.
  pose proof (C4_exit_codes LF "Later" "|" unparse_black)
    as (Htimeout & Hextra & Hfail & _ & _ & _ & Hstr & _).
  split; [apply Htimeout; reflexivity|].
  split; [exact Hextra|].
  split; [apply Hfail; [reflexivity | discriminate]|].
  apply Hstr. discriminate.
Defined.

End ExitCodes.

(* ===================================================================== *)
(** ** The sentinel of unspecified strings *)
(* ===================================================================== *)

Section Sentinel.

Import Zenity Main Samples.

Variable GOOS : string.
Variable exec_Output : list string -> string * option error.
Variable ParseColor : string -> Color_.

Lemma In_when x b o : In x (when b o) <-> b = true /\ x = o.
Proof.
  destruct b; cbn; intuition (try discriminate; try congruence).
Qed.

Lemma specified_iff s : negb (String.eqb s unspecified) = true <-> s <> unspecified.
Proof.
  destruct (String.eqb_spec s unspecified); cbn;
    intuition (try discriminate; try congruence).
Qed.

(** A default replaces the sentinel and nothing else. *)
Lemma setDefault_specified s val : s <> unspecified -> setDefault s val = s.
Proof.
  unfold setDefault. destruct (String.eqb_spec s unspecified); congruence.
Qed.

Lemma setDefault_not_sentinel s val :
  val <> unspecified -> setDefault s val <> unspecified.
Proof.
  unfold setDefault. destruct (String.eqb_spec s unspecified); congruence.
Qed.

(** Membership in the list [loadFlags] builds, one segment at a time. *)
Ltac in_options :=
  unfold loadFlags; cbn [fst snd];
  repeat rewrite in_app_iff; repeat rewrite In_when; cbn [In];
  repeat rewrite specified_iff.

Lemma loadFlags_Title a g o v :
  let r := loadFlags GOOS exec_Output ParseColor a g o in
  In (Title v) (snd r) <->
  v = title (fst r) /\ title (fst r) <> unspecified.
Proof.
  cbv zeta. in_options. intuition (try discriminate; try congruence).
Qed.

Lemma loadFlags_OKLabel a g o v :
  let r := loadFlags GOOS exec_Output ParseColor a g o in
  In (OKLabel v) (snd r) <->
  v = okLabel (fst r) /\ okLabel (fst r) <> unspecified.
Proof.
  cbv zeta. in_options. intuition (try discriminate; try congruence).
Qed.

Lemma loadFlags_CancelLabel a g o v :
  let r := loadFlags GOOS exec_Output ParseColor a g o in
  In (CancelLabel v) (snd r) <->
  v = cancelLabel (fst r) /\ cancelLabel (fst r) <> unspecified.
Proof.
  cbv zeta. in_options. intuition (try discriminate; try congruence).
Qed.

Lemma loadFlags_ExtraButton a g o v :
  let r := loadFlags GOOS exec_Output ParseColor a g o in
  In (ExtraButton v) (snd r) <->
  v = extraButton (fst r) /\ extraButton (fst r) <> unspecified.
Proof.
  cbv zeta. in_options. intuition (try discriminate; try congruence).
Qed.

Lemma loadFlags_Icon a g o i :
  let r := loadFlags GOOS exec_Output ParseColor a g o in
  In (Icon i) (snd r) <-> i = iconOf (icon (fst r)).
Proof.
  cbv zeta. in_options. intuition (try discriminate; try congruence).
Qed.

(** The defaults leave every explicitly set string as it is, and never
    touch the extra button. *)
Lemma loadDefaults_keeps a g :
  (title g <> unspecified -> title (loadDefaults a g) = title g) /\
  (okLabel g <> unspecified -> okLabel (loadDefaults a g) = okLabel g) /\
  (cancelLabel g <> unspecified ->
   cancelLabel (loadDefaults a g) = cancelLabel g) /\
  (text g <> unspecified -> text (loadDefaults a g) = text g) /\
  (icon g <> unspecified -> icon (loadDefaults a g) = icon g) /\
  extraButton (loadDefaults a g) = extraButton g.
Proof.
  unfold loadDefaults.
  destruct (errorDlg a), (infoDlg a), (warningDlg a), (questionDlg a),
    (entryDlg a), (listDlg a), (passwordDlg a); cbn;
    repeat split; intros; try apply setDefault_specified; trivial.
Qed.

(** The text a call carries is the variable [text] after defaulting, and
    it is never the sentinel. *)
Lemma dispatch_text a g o args opts t :
  call_text (dispatch a (loadDefaults a g) o args opts) = Some t ->
  t = text (loadDefaults a g) /\ t <> unspecified.
Proof.
  unfold dispatch, loadDefaults.
  destruct (errorDlg a), (infoDlg a), (warningDlg a), (questionDlg a),
    (entryDlg a), (listDlg a), (passwordDlg a), (fileSelectionDlg a),
    (colorSelectionDlg a), (notification a), (multiple g), (save o);
    cbn; intros [= <-]; (split; [reflexivity|]);
    apply setDefault_not_sentinel; discriminate.
Qed.

(** The password, file and colour dialogs take no text. *)
Lemma dispatch_no_text a g o args opts :
  errorDlg a = false -> infoDlg a = false -> warningDlg a = false ->
  questionDlg a = false -> entryDlg a = false -> listDlg a = false ->
  passwordDlg a || fileSelectionDlg a || colorSelectionDlg a = true ->
  call_text (dispatch a g o args opts) = None.
Proof.
  unfold dispatch. intros -> -> -> -> -> ->.
  destruct (passwordDlg a), (fileSelectionDlg a), (colorSelectionDlg a),
    (multiple g), (save o); cbn; intros; try reflexivity; discriminate.
Qed.

End Sentinel.

Section SentinelClaims.

Import Zenity Main Samples.

(** C5, as stated, fails for the icon and for the text.  For
    [zenity --entry] the icon is still the sentinel after defaulting and
    the options hold an icon option all the same; the options for
    [--icon-name=foo] are those for no icon flag at all, so the name is
    not carried; and [zenity --password --text=Secret] makes the call
    that [zenity --password] makes. *)
Lemma C5_icon_and_text_not_carried :
  let load g :=
    loadFlags "linux" no_exec parse_black entry_only g setupFlags_others in
  let call g :=
    main_call "linux" no_exec parse_black 0 0 password_only g
      setupFlags_others [] in
  icon (fst (load setupFlags_general)) = unspecified /\
  In (Icon ZeroIcon) (snd (load setupFlags_general)) /\
  icon (setString "icon-name" "foo" setupFlags_general) = "foo" /\
  snd (load (setString "icon-name" "foo" setupFlags_general)) =
    snd (load setupFlags_general) /\
  text (setString "text" "Secret" setupFlags_general) = "Secret" /\
  call (setString "text" "Secret" setupFlags_general) =
    call setupFlags_general.
Proof. cbv zeta. repeat split. vm_compute. tauto. Qed.

(** C5, amended.  For the title and the labels of the OK, Cancel and
    extra buttons: when the variable still holds the sentinel after
    defaulting, the options [loadFlags] returns hold no option for it;
    otherwise they hold that option with the value of the variable and
    with no other value, and an explicitly set value, the empty string
    included, is the value of the variable.  The icon is not carried as a
    string: the options always hold one icon option, of the kind
    [iconOf] gives the name.  The text is no option: [main] passes it,
    as it is after defaulting, to the dialogs that take a text, where it
    is the explicitly set value if there is one, and the password, file
    and colour dialogs get none. *)
Theorem C5_sentinel_omitted_explicit_values_kept
  (GOOS : string) (exec_Output : list string -> string * option error)
  (ParseColor : string -> Color_) a g o :
  let g' := fst (loadFlags GOOS exec_Output ParseColor a g o) in
  let opts := snd (loadFlags GOOS exec_Output ParseColor a g o) in
  (forall v, In (Title v) opts <->
             v = title g' /\ title g' <> unspecified) /\
  (forall v, In (OKLabel v) opts <->
             v = okLabel g' /\ okLabel g' <> unspecified) /\
  (forall v, In (CancelLabel v) opts <->
             v = cancelLabel g' /\ cancelLabel g' <> unspecified) /\
  (forall v, In (ExtraButton v) opts <->
             v = extraButton g' /\ extraButton g' <> unspecified) /\
  (title g <> unspecified -> title g' = title g) /\
  (okLabel g <> unspecified -> okLabel g' = okLabel g) /\
  (cancelLabel g <> unspecified -> cancelLabel g' = cancelLabel g) /\
  extraButton g' = extraButton g /\
  (forall i, In (Icon i) opts <-> i = iconOf (icon g')) /\
  (forall args opts' t,
     call_text (dispatch a g' o args opts') = Some t ->
     t = text g' /\ t <> unspecified /\
     (text g <> unspecified -> t = text g)) /\
  (forall args opts',
     errorDlg a = false -> infoDlg a = false -> warningDlg a = false ->
     questionDlg a = false -> entryDlg a = false -> listDlg a = false ->
     passwordDlg a || fileSelectionDlg a || colorSelectionDlg a = true ->
     call_text (dispatch a g' o args opts') = None).
Proof.
  intros g' opts.
  pose proof (loadDefaults_keeps a g) as (Kt & Kok & Kca & Ktx & _ & Kex).
  assert (Hg' : g' = loadDefaults a g) by reflexivity.
  split; [intros v; apply loadFlags_Title|].
  split; [intros v; apply loadFlags_OKLabel|].
  split; [intros v; apply loadFlags_CancelLabel|].
  split; [intros v; apply loadFlags_ExtraButton|].
  rewrite Hg'. repeat (split; [assumption|]).
  split; [intros i; rewrite <- Hg'; apply loadFlags_Icon|].
  split.
  - intros args opts' t Ht.
    destruct (dispatch_text _ _ _ _ _ _ Ht) as [-> Hns].
    repeat split; [exact Hns | exact Ktx].
  - intros args opts'. apply dispatch_no_text.
Qed.

(** The amended C5 at work: [zenity --entry --title= --extra-button=Later]
    renders the empty title and the extra label as given, and the
    defaults for the two buttons. *)
Lemma C5_sentinel_omitted_explicit_values_kept_witness :
  let g := setString "extra-button" "Later"
             (setString "title" EmptyString setupFlags_general) in
  let opts :=
    snd (loadFlags "linux" no_exec parse_black entry_only g
           setupFlags_others) in
  In (Title EmptyString) opts /\ In (ExtraButton "Later") opts /\
  In (OKLabel "OK") opts /\ In (Icon ZeroIcon) opts.
Proof.
  intros g opts.
  pose proof (C5_sentinel_omitted_explicit_values_kept
                "linux" no_exec parse_black entry_only g setupFlags_others)
    as (Ht & Hok & _ & Hex & _ & _ & _ & _ & Hic & _).
  split; [apply Ht; split; [reflexivity | discriminate]|].
  split; [apply Hex; split; [reflexivity | discriminate]|].
  split; [apply Hok; split; [reflexivity | discriminate]|].
  apply Hic. reflexivity.
Defined.

End SentinelClaims.

(* ===================================================================== *)
(** ** Cutting and splitting at a one-character separator *)
(* ===================================================================== *)

Section SplitFacts.

Import Strings.

Lemma HasPrefix_empty s : HasPrefix s EmptyString = true.
Proof. destruct s; reflexivity. Qed.

Lemma Cut_empty c : Cut EmptyString (char_string c) = None.
Proof. reflexivity. Qed.

Lemma Cut_cons_same c s :
  Cut (String c s) (char_string c) = Some (EmptyString, s).
Proof. cbn. rewrite Ascii.eqb_refl, HasPrefix_empty. reflexivity. Qed.

Lemma Cut_cons_other c x s :
  x <> c ->
  Cut (String x s) (char_string c) =
  match Cut s (char_string c) with
  | Some (a, b) => Some (String x a, b)
  | None => None
  end.
Proof.
  intros Hx. cbn. destruct (Ascii.eqb_spec c x); [congruence|]. reflexivity.
Qed.

(** A successful cut is at the first occurrence of the character. *)
Lemma Cut_char_spec c s a b :
  Cut s (char_string c) = Some (a, b) ->
  s = a ++ String c b /\ Contains a (char_string c) = false.
Proof.
  revert a. induction s as [|x s IH]; intros a.
  - rewrite Cut_empty. discriminate.
  - destruct (Ascii.eqb_spec x c) as [->|Hx].
    + rewrite Cut_cons_same. intros [= <- <-]. split; reflexivity.
    + rewrite (Cut_cons_other _ _ _ Hx).
      destruct (Cut s (char_string c)) as [[a' b']|]; [|discriminate].
      intros [= <- <-]. destruct (IH a' eq_refl) as [-> Hno].
      split; [reflexivity|].
      unfold Contains in *. rewrite (Cut_cons_other _ _ _ Hx).
      destruct (Cut a' (char_string c)) as [[? ?]|];
        [discriminate | reflexivity].
Qed.

(** A string free of the character is cut at the character that follows
    it. *)
Lemma Cut_char_found c a b :
  Contains a (char_string c) = false ->
  Cut (a ++ String c b) (char_string c) = Some (a, b).
Proof.
  induction a as [|x a IH]; intros Hno.
  - apply Cut_cons_same.
  - destruct (Ascii.eqb_spec x c) as [->|Hx].
    + unfold Contains in Hno. rewrite Cut_cons_same in Hno. discriminate.
    + cbn [append]. rewrite (Cut_cons_other _ _ _ Hx).
      rewrite IH; [reflexivity|].
      unfold Contains in *. rewrite (Cut_cons_other _ _ _ Hx) in Hno.
      destruct (Cut a (char_string c)) as [[? ?]|];
        [discriminate | reflexivity].
Qed.

Lemma Cut_char_none c s :
  Contains s (char_string c) = false -> Cut s (char_string c) = None.
Proof.
  unfold Contains. destruct (Cut s (char_string c)); [discriminate|tauto].
Qed.

(** [strings.SplitN(s, sep, 2)] for a one-character separator. *)
Lemma SplitN_2 c s :
  SplitN s (char_string c) 2 =
  match Cut s (char_string c) with
  | Some (a, b) => [a; b]
  | None => [s]
  end.
Proof.
  unfold SplitN. cbn [Z.eqb String.eqb char_string Z.ltb Z.compare].
  change (Z.to_nat (2 - 1)) with 1%nat.
  destruct s as [|x s]; [reflexivity|].
  cbn [String.length Nat.min genSplit].
  destruct (Cut (String x s) (String c EmptyString)) as [[a b]|];
    reflexivity.
Qed.

End SplitFacts.

(* ===================================================================== *)
(** ** The credential dialog *)
(* ===================================================================== *)

Section Credentials.

Import Strings Zenity Samples.

Variable Run : option Context -> list string -> option string * option error.
Variable strResult :
  options -> option string -> option error -> string * bool * option error.
Variable appendTitle : list string -> options -> list string.
Variable appendButtons : list string -> options -> list string.

(** [password] after the run and the decoding, when the user name was
    asked for and the decoder reports success. *)
Lemma password_decoded opts out err str e :
  Run (ctx opts) (password_args appendTitle appendButtons opts)
    = (out, err) ->
  strResult opts out err = (str, true, e) ->
  username opts = true ->
  password Run strResult appendTitle appendButtons opts =
  match Cut (string_of_bytes out) "|" with
  | Some (user, pw) => (user, pw, true, None)
  | None => (EmptyString, str, true, e)
  end.
Proof.
  intros Hrun Hdec Huser. unfold password.
  rewrite Hrun, Hdec, Huser. cbn [andb].
  change "|" with (char_string "|"). rewrite SplitN_2.
  destruct (Cut (string_of_bytes out) (char_string "|")) as [[user pw]|];
    reflexivity.
Qed.

End Credentials.

Section CredentialClaims.

Import Strings Zenity Samples.

(** C6: when the credential dialog was asked for the user name, the
    decoder reports success and the output holds a vertical bar, the
    output is the user name, the first bar and the password, the user
    name holding no bar, and [password] returns that user name and that
    password with [ok] true and a nil error. *)
Theorem C6_password_splits_at_first_bar
  Run strResult appendTitle appendButtons opts out err str e :
  Run (ctx opts) (password_args appendTitle appendButtons opts)
    = (out, err) ->
  strResult opts out err = (str, true, e) ->
  username opts = true ->
  Contains (string_of_bytes out) "|" = true ->
  exists user pw,
    string_of_bytes out = user ++ "|" ++ pw /\
    Contains user "|" = false /\
    password Run strResult appendTitle appendButtons opts =
      (user, pw, true, None).
Proof.
  intros Hrun Hdec Huser Hbar.
  rewrite (password_decoded _ _ _ _ _ _ _ _ _ Hrun Hdec Huser).
  unfold Contains in Hbar.
  destruct (Cut (string_of_bytes out) "|") as [[user pw]|] eqn:Hcut;
    [|discriminate].
  exists user, pw.
  destruct (Cut_char_spec "|" _ _ _ Hcut) as [Heq Hno].
  repeat split; assumption.
Qed.

(** C6 at work: the backend prints [alice|s3|cret] and a line break. *)
Lemma C6_password_splits_at_first_bar_witness :
  exists user pw,
    "alice|s3|cret" ++ LF = user ++ "|" ++ pw /\
    Contains user "|" = false /\
    password (prints ("alice|s3|cret" ++ LF)) decode_line no_flags no_flags
      with_username = (user, pw, true, None).
Proof.
  exact (C6_password_splits_at_first_bar
           (prints ("alice|s3|cret" ++ LF)) decode_line no_flags no_flags
           with_username (Some ("alice|s3|cret" ++ LF)) None
           "alice|s3|cret" None eq_refl eq_refl eq_refl eq_refl).
Defined.



End CredentialClaims.

(* ===================================================================== *)
(** ** Lists of results: joining and splitting *)
(* ===================================================================== *)

Section JoinSplit.

Import Strings Zenity Samples.

Lemma length_app_string a b :
  String.length (a ++ b) = (String.length a + String.length b)%nat.
Proof. induction a as [|x a IH]; cbn; [reflexivity | now rewrite IH]. Qed.

(** Joining two items or more. *)
Lemma Join_cons e e' rest sep :
  Join (e :: e' :: rest) sep = e ++ sep ++ Join (e' :: rest) sep.
Proof. reflexivity. Qed.

(** The joined string has room for every cut the items need. *)
Lemma length_Join c items :
  (List.length items <= S (String.length (Join items (char_string c))))%nat.
Proof.
  induction items as [|e [|e' rest] IH].
  - cbn. lia.
  - cbn. lia.
  - rewrite Join_cons, !length_app_string. cbn [List.length] in *.
    cbn [char_string String.length]. lia.
Qed.

(** Splitting the joined string with enough cuts gives the items back. *)
Lemma genSplit_Join c items cuts :
  items <> [] ->
  (List.length items <= S cuts)%nat ->
  Forall (fun it => Contains it (char_string c) = false) items ->
  genSplit (Join items (char_string c)) (char_string c) cuts = items.
Proof.
  revert cuts. induction items as [|e [|e' rest] IH]; intros cuts Hne Hlen Hno.
  - contradiction.
  - inversion Hno as [|? ? He _]; subst.
    destruct cuts; cbn [Join genSplit]; [reflexivity|].
    rewrite (Cut_char_none _ _ He). reflexivity.
  - inversion Hno as [|? ? He Hrest]; subst.
    destruct cuts as [|k]; [cbn in Hlen; lia|].
    rewrite Join_cons. cbn [genSplit]. cbn [char_string append].
    change (String c (Join (e' :: rest) (String c EmptyString)))
      with (String c (Join (e' :: rest) (char_string c))).
    change (String c EmptyString) with (char_string c).
    rewrite (Cut_char_found _ _ _ He).
    rewrite IH; [reflexivity | discriminate | cbn in *; lia | exact Hrest].
Qed.

(** C9, as stated, fails at the empty list: it joins to the empty
    string, which splits into one empty item.  No parser can do better,
    since the list of one empty item joins to the same string. *)
Lemma C9_empty_list_not_reproduced :
  Forall (fun it => Contains it "|" = false) [] /\
  Join [] "|" = EmptyString /\
  parseList (Join [] "|") "|" = [EmptyString] /\
  parseList (Join [] "|") "|" <> [] /\
  Join [EmptyString] "|" = Join [] "|".
Proof. repeat split; [constructor | discriminate]. Qed.

(** C9, amended: for every list of at least one item, none of which
    contains the separator character, [listResult] prints the items
    joined with the separator, and splitting the joined string on the
    separator gives the list back. *)
Theorem C9_join_then_split LineBreak extraButton c items :
  items <> [] ->
  Forall (fun it => Contains it (char_string c) = false) items ->
  Main.Stdout
    (Main.listResult LineBreak extraButton (char_string c) (Some items) None)
    = Join items (char_string c) ++ LineBreak /\
  parseList (Join items (char_string c)) (char_string c) = items.
Proof.
  intros Hne Hno. split; [reflexivity|].
  unfold parseList, Split, SplitN.
  cbn [Z.eqb String.eqb char_string Z.ltb Z.compare].
  apply genSplit_Join; [exact Hne | apply (length_Join c) | exact Hno].
Qed.

(** The amended C9 at work: three file names, one of them empty. *)
Lemma C9_join_then_split_witness :
  Main.Stdout
    (Main.listResult LF "Later" "|" (Some ["a.txt"; EmptyString; "b c.txt"]) None)
    = "a.txt||b c.txt" ++ LF /\
  parseList (Join ["a.txt"; EmptyString; "b c.txt"] "|") "|" =
    ["a.txt"; EmptyString; "b c.txt"].
Proof.
  apply (C9_join_then_split LF "Later" "|" ["a.txt"; EmptyString; "b c.txt"]).
  - discriminate.
  - repeat constructor.
Defined.

End JoinSplit.

(* ===================================================================== *)
(** ** More on the scripting-bridge runner *)
(* ===================================================================== *)

Section RunMore.

Import Zenutil Samples.

(** The full trace of a fast path that reached [syscall.Exec]. *)
Lemma exec_replace_trace w script path argv :
  In (EvExec path argv) (fst (exec_replace w script)) ->
  fst (exec_replace w script) =
    [EvTempFile; EvRemove; EvWriteString script; EvSeek; EvDup2Stdin;
     EvCloseStderr; EvExec path ["osascript"; "-l"; "JavaScript"]] /\
  argv = ["osascript"; "-l"; "JavaScript"] /\
  LookPath w "osascript" = Some path.
Proof.
  unfold exec_replace.
  destruct (LookPath w "osascript") as [p|]; cbn; [|tauto].
  destruct (TempFile_ok w), (Remove_ok w), (WriteString_ok w), (Seek_ok w),
    (Dup2_ok w), (StderrClose_ok w), (Exec_ok w); cbn;
    intuition (try discriminate);
    match goal with H : EvExec _ _ = EvExec _ _ |- _ =>
      injection H as <- <- end; reflexivity.
Qed.


(** X2: in command mode, when the interpreter is not on the search path
    or no temporary file can be created, [Run] does exactly what it does
    outside command mode. *)
Theorem Run_fast_path_unavailable w ctx script data :
  LookPath w "osascript" = None \/ TempFile_ok w = false ->
  Run w true ctx script data = Run w false ctx script data.
Proof.
  intros H. unfold Run.
  destruct (ExecuteTemplate w script data) as [buf [e|]]; [reflexivity|].
  assert (Hfast : fast_path w true buf = fast_path w false buf).
  { unfold fast_path, exec_replace.
    destruct H as [-> | H]; [reflexivity|].
    destruct (LookPath w "osascript"); [|reflexivity].
    rewrite H. reflexivity. }
  rewrite Hfast. reflexivity.
Qed.

Lemma Run_fast_path_unavailable_witness :
  Run mac_no_osascript true None "notify" hello =
    ([EvSpawn (osascript None)], Returned (Some "ok") None).
Proof.
  rewrite (Run_fast_path_unavailable mac_no_osascript None "notify" hello
             (or_introl eq_refl)).
  reflexivity.
Defined.

(** X3: [syscall.Exec] is called only in command mode and only as the
    last of seven steps that all succeeded, in this order: the temporary
    file is created, unlinked, the rendered script is written to it, it
    is rewound, made the standard input, and the error stream is
    closed. *)
Theorem Run_exec_after_preparation w Command ctx script data path argv :
  In (EvExec path argv) (fst (Run w Command ctx script data)) ->
  Command = true /\
  argv = ["osascript"; "-l"; "JavaScript"] /\
  LookPath w "osascript" = Some path /\
  exists rest,
    fst (Run w Command ctx script data) =
      ([EvTempFile; EvRemove;
        EvWriteString (fst (ExecuteTemplate w script data));
        EvSeek; EvDup2Stdin; EvCloseStderr; EvExec path argv] ++ rest)%list.
Proof.
  destruct (ExecuteTemplate w script data) as [buf [e|]] eqn:Htmpl.
  - unfold Run. rewrite Htmpl. cbn. tauto.
  - rewrite (Run_rendered _ _ _ _ _ _ Htmpl). cbv zeta. cbn [fst].
    unfold fast_path. destruct Command.
    + destruct (snd (exec_replace w buf)) eqn:Hfast; cbn [fst snd].
      * intros Hin.
        destruct (exec_replace_trace _ _ _ _ Hin) as (Htr & -> & Hpath).
        repeat split; [exact Hpath|]. exists []. rewrite Htr. reflexivity.
      * rewrite in_app_iff. intros [Hin | [[=] | []]].
        destruct (exec_replace_trace _ _ _ _ Hin) as (Htr & -> & Hpath).
        repeat split; [exact Hpath|]. eexists. rewrite Htr. reflexivity.
    + cbn. intros [[=] | []].
Qed.

Lemma Run_exec_after_preparation_witness :
  true = true /\
  ["osascript"; "-l"; "JavaScript"] = ["osascript"; "-l"; "JavaScript"] /\
  LookPath mac "osascript" = Some "/usr/bin/osascript" /\
  exists rest,
    fst (Run mac true None "notify" hello) =
      ([EvTempFile; EvRemove;
        EvWriteString (fst (ExecuteTemplate mac "notify" hello));
        EvSeek; EvDup2Stdin; EvCloseStderr;
        EvExec "/usr/bin/osascript" ["osascript"; "-l"; "JavaScript"]]
       ++ rest)%list.
Proof.
  apply (Run_exec_after_preparation mac true None "notify" hello
           "/usr/bin/osascript" ["osascript"; "-l"; "JavaScript"]).
  cbn. tauto.
Defined.

(** X4: whenever [Run] returns after the template has rendered, it has
    run exactly one child, as its last effect, and the output it returns
    is the output of that child, also when the error is replaced by the
    error of the context; without a context the error is the child's
    too. *)
Theorem Run_returns_output_of_one_child
  w Command ctx script data buf out err :
  ExecuteTemplate w script data = (buf, None) ->
  snd (Run w Command ctx script data) = Returned out err ->
  exists before cmd,
    fst (Run w Command ctx script data) = (before ++ [EvSpawn cmd])%list /\
    (forall c, ~ In (EvSpawn c) before) /\
    out = fst (Output w cmd) /\
    (ctx = None -> err = snd (Output w cmd)).
Proof.
  intros Htmpl. rewrite (Run_rendered _ _ _ _ _ _ Htmpl). cbv zeta.
  destruct (snd (fast_path w Command buf)) as [r|] eqn:Hfast; cbn [fst snd].
  - intros ->. unfold fast_path in Hfast. destruct Command; [|discriminate].
    destruct (exec_replace_taken _ _ _ Hfast) as (? & _ & [=] & _).
  - intros [= <- <-]. eexists. eexists. split; [reflexivity|].
    split; [|split; [reflexivity | intros ->; reflexivity]].
    intros c. unfold fast_path. destruct Command.
    + apply exec_replace_no_spawn.
    + cbn. tauto.
Qed.

Lemma Run_returns_output_of_one_child_witness :
  exists before cmd,
    fst (Run mac_no_tmp true None "notify" hello)
      = (before ++ [EvSpawn cmd])%list /\
    (forall c, ~ In (EvSpawn c) before) /\
    Some "ok" = fst (Output mac_no_tmp cmd) /\
    (@None Context = None -> @None error = snd (Output mac_no_tmp cmd)).
Proof.
  exact (Run_returns_output_of_one_child mac_no_tmp true None "notify" hello
           "display notification" (Some "ok") None eq_refl eq_refl).
Defined.

(** X5: [SetButtons] fails (the index expression panics) exactly when
    the extra button is numbered beyond the buttons; otherwise the
    buttons and the numbers of the default and cancel buttons are stored,
    and the extra label is the button of that number when the number is
    positive and is left as it was when it is not. *)
Theorem SetButtons_extra_in_range d btns :
  (SetButtons d btns = None <->
   Z.of_nat (List.length (b_Buttons btns)) < b_Extra btns) /\
  (forall d', SetButtons d btns = Some d' ->
     do_Buttons (d_Options d') = b_Buttons btns /\
     do_Default (d_Options d') = b_Default btns /\
     do_Cancel (d_Options d') = b_Cancel btns /\
     (b_Extra btns <= 0 -> d_Extra d' = d_Extra d) /\
     (0 < b_Extra btns ->
      exists name, d_Extra d' = Some name /\ In name (b_Buttons btns) /\
        nth_error (b_Buttons btns) (Z.to_nat (b_Extra btns - 1))
          = Some name)).
Proof.
  unfold SetButtons.
  destruct (Z.ltb_spec 0 (b_Extra btns)) as [Hpos|Hneg].
  - destruct (nth_error (b_Buttons btns) (Z.to_nat (b_Extra btns - 1)))
      as [name|] eqn:Hnth.
    + split.
      * split; [discriminate|]. intros Hlt.
        assert (Hn : nth_error (b_Buttons btns)
                       (Z.to_nat (b_Extra btns - 1)) <> None)
          by congruence.
        apply nth_error_Some in Hn. lia.
      * intros d' [= <-]. cbn.
        do 3 (split; [reflexivity|]). split; [lia|].
        intros _. exists name.
        split; [reflexivity | split; [exact (nth_error_In _ _ Hnth)
                                     | reflexivity]].
    + split.
      * split; [|reflexivity]. intros _.
        apply nth_error_None in Hnth. lia.
      * discriminate.
  - split.
    + split; [discriminate|]. intros Hlt. lia.
    + intros d' [= <-]. cbn.
      do 3 (split; [reflexivity|]). split; [reflexivity | lia].
Qed.

Lemma SetButtons_extra_in_range_witness :
  SetButtons two_buttons
    {| b_Buttons := ["No"; "Later"; "Yes"]; b_Default := 3; b_Cancel := 1;
       b_Extra := 2 |} <> None /\
  SetButtons two_buttons
    {| b_Buttons := ["No"; "Later"]; b_Default := 2; b_Cancel := 1;
       b_Extra := 3 |} = None.
Proof.
  split.
  - intros H.
    apply (proj1 (SetButtons_extra_in_range two_buttons _)) in H.
    cbn in H. lia.
  - apply (proj1 (SetButtons_extra_in_range two_buttons _)).
    cbn. lia.
Defined.

End RunMore.

(* ===================================================================== *)
(** ** More on the command: kinds, defaults, deadline *)
(* ===================================================================== *)

Section CommandMore.

Import Zenity Main Samples.

(** The count of [validateFlags] is the number of kinds asked for. *)
Lemma kinds_set_count a :
  kinds_set a =
  Z.of_nat
    (List.length
       (filter (fun b : bool => b)
          [errorDlg a; infoDlg a; warningDlg a; questionDlg a; entryDlg a;
           listDlg a; passwordDlg a; fileSelectionDlg a;
           colorSelectionDlg a; notification a])).
Proof.
  unfold kinds_set, incr_if.
  destruct (errorDlg a), (infoDlg a), (warningDlg a), (questionDlg a),
    (entryDlg a), (listDlg a), (passwordDlg a), (fileSelectionDlg a),
    (colorSelectionDlg a), (notification a); vm_compute; reflexivity.
Qed.

(** With no kind asked for, the count is 0. *)
Lemma kinds_set_none a :
  errorDlg a = false -> infoDlg a = false -> warningDlg a = false ->
  questionDlg a = false -> entryDlg a = false -> listDlg a = false ->
  passwordDlg a = false -> fileSelectionDlg a = false ->
  colorSelectionDlg a = false -> notification a = false ->
  kinds_set a = 0.
Proof.
  unfold kinds_set. intros -> -> -> -> -> -> -> -> -> ->. reflexivity.
Qed.

(** X6: [validateFlags] lets the command go on exactly when one dialog
    kind was asked for, and otherwise ends it with code -1; after it, the
    [switch] of [main] always calls a dialog and never falls through to
    the usage message. *)
Theorem validateFlags_one_kind a :
  (validateFlags a = None <->
   List.length
     (filter (fun b : bool => b)
        [errorDlg a; infoDlg a; warningDlg a; questionDlg a; entryDlg a;
         listDlg a; passwordDlg a; fileSelectionDlg a; colorSelectionDlg a;
         notification a]) = 1%nat) /\
  (validateFlags a <> None -> validateFlags a = Some (-1)) /\
  (validateFlags a = None ->
   forall g o args opts, dispatch a g o args opts <> Usage).
Proof.
  split; [|split].
  - unfold validateFlags. rewrite kinds_set_count.
    destruct (Z.eqb_spec
      (Z.of_nat (List.length (filter (fun b : bool => b)
         [errorDlg a; infoDlg a; warningDlg a; questionDlg a; entryDlg a;
          listDlg a; passwordDlg a; fileSelectionDlg a; colorSelectionDlg a;
          notification a]))) 1) as [H|H]; cbv [negb].
    + split; [intros _; lia | reflexivity].
    + split; [discriminate | intros H'; lia].
  - unfold validateFlags. destruct (kinds_set a =? 1); cbn; congruence.
  - intros Hv g o args opts. unfold dispatch.
    destruct (errorDlg a) eqn:E1; [discriminate|].
    destruct (infoDlg a) eqn:E2; [discriminate|].
    destruct (warningDlg a) eqn:E3; [discriminate|].
    destruct (questionDlg a) eqn:E4; [discriminate|].
    destruct (entryDlg a) eqn:E5; [discriminate|].
    destruct (listDlg a) eqn:E6;
      [destruct (multiple g); discriminate|].
    destruct (passwordDlg a) eqn:E7; [discriminate|].
    destruct (fileSelectionDlg a) eqn:E8;
      [destruct (save o), (multiple g); discriminate|].
    destruct (colorSelectionDlg a) eqn:E9; [discriminate|].
    destruct (notification a) eqn:E10; [discriminate|].
    unfold validateFlags in Hv.
    rewrite (kinds_set_none a E1 E2 E3 E4 E5 E6 E7 E8 E9 E10) in Hv.
    discriminate.
Qed.

Lemma validateFlags_one_kind_witness :
  validateFlags entry_only = None /\
  dispatch entry_only setupFlags_general setupFlags_others [] [] <> Usage.
Proof.
  split.
  - apply (proj1 (validateFlags_one_kind entry_only)). reflexivity.
  - exact (proj2 (proj2 (validateFlags_one_kind entry_only)) eq_refl
             setupFlags_general setupFlags_others [] []).
Defined.

End CommandMore.

Section DefaultsMore.

Import Zenity Main Samples.

Lemma setDefault_twice s val :
  setDefault (setDefault s val) val = setDefault s val.
Proof.
  unfold setDefault at 2 3.
  destruct (String.eqb_spec s unspecified) as [->|Hs].
  - unfold setDefault. destruct (String.eqb val unspecified); reflexivity.
  - apply setDefault_specified. exact Hs.
Qed.

(** X7: the defaults are applied once and for all: loading the flags
    again from the variables [loadFlags] left behind changes neither the
    variables nor the options. *)
Theorem loadFlags_idempotent
  (GOOS : string) (exec_Output : list string -> string * option error)
  (ParseColor : string -> Color_) a g o :
  loadFlags GOOS exec_Output ParseColor a
    (fst (loadFlags GOOS exec_Output ParseColor a g o)) o =
  loadFlags GOOS exec_Output ParseColor a g o.
Proof.
  assert (H : loadDefaults a (loadDefaults a g) = loadDefaults a g).
  { unfold loadDefaults.
    destruct (errorDlg a), (infoDlg a), (warningDlg a), (questionDlg a),
      (entryDlg a), (listDlg a), (passwordDlg a); cbn;
      rewrite ?setDefault_twice; reflexivity. }
  unfold loadFlags. cbn [fst]. rewrite H. reflexivity.
Qed.

(** X8: for the seven kinds that have defaults (error, info, warning,
    question, entry, list, password) the options always carry a title and
    an OK label, and neither is the sentinel. *)
Theorem loadFlags_title_and_ok_always
  (GOOS : string) (exec_Output : list string -> string * option error)
  (ParseColor : string -> Color_) a g o :
  errorDlg a || infoDlg a || warningDlg a || questionDlg a || entryDlg a
    || listDlg a || passwordDlg a = true ->
  let g' := fst (loadFlags GOOS exec_Output ParseColor a g o) in
  let opts := snd (loadFlags GOOS exec_Output ParseColor a g o) in
  In (Title (title g')) opts /\ title g' <> unspecified /\
  In (OKLabel (okLabel g')) opts /\ okLabel g' <> unspecified.
Proof.
  intros Hkind g' opts.
  assert (Hns : title g' <> unspecified /\ okLabel g' <> unspecified).
  { subst g'. unfold loadFlags. cbn [fst]. unfold loadDefaults.
    destruct (errorDlg a), (infoDlg a), (warningDlg a), (questionDlg a),
      (entryDlg a), (listDlg a), (passwordDlg a); try discriminate Hkind;
      cbn; split; apply setDefault_not_sentinel; discriminate. }
  destruct Hns as [Ht Hok].
  split; [apply loadFlags_Title; split; [reflexivity | exact Ht]|].
  split; [exact Ht|].
  split; [apply loadFlags_OKLabel; split; [reflexivity | exact Hok]|].
  exact Hok.
Qed.

Lemma loadFlags_title_and_ok_always_witness :
  let r := loadFlags "linux" no_exec parse_black password_only
             setupFlags_general setupFlags_others in
  In (Title (title (fst r))) (snd r) /\ title (fst r) <> unspecified /\
  In (OKLabel (okLabel (fst r))) (snd r) /\ okLabel (fst r) <> unspecified.
Proof.
  exact (loadFlags_title_and_ok_always "linux" no_exec parse_black
           password_only setupFlags_general setupFlags_others eq_refl).
Defined.

(** X9: [main] always switches command mode on.  Without a positive
    timeout there is no context; with a timeout of up to 9223372036
    seconds the context has its deadline that many seconds after the
    start and has not fired at the start. *)
Theorem main_context_deadline now Timeout :
  fst (main_context now Timeout) = true /\
  (Timeout <= 0 -> snd (main_context now Timeout) = None) /\
  (0 < Timeout <= 9223372036 ->
   exists ctx,
     snd (main_context now Timeout) = Some ctx /\
     done_at ctx = Some (now + Timeout * 1000000000) /\
     done_err ctx = CtxDeadlineExceeded /\
     Context_Err ctx now = None /\
     Context_Err ctx (now + Timeout * 1000000000)
       = Some DeadlineExceeded).
Proof.
  unfold main_context.
  destruct (Z.ltb_spec 0 Timeout) as [Hpos|Hneg].
  - split; [reflexivity|]. split; [lia|]. intros [_ Hmax].
    eexists. split; [reflexivity|].
    assert (Hw : int_wrap Int64 (Timeout * Second) = Timeout * 1000000000).
    { apply int_wrap_in_range. unfold Second, MinInt, MaxInt. cbn. lia. }
    unfold WithTimeout, Context_Err. cbn [done_at done_err].
    rewrite Hw.
    split; [reflexivity|]. split; [reflexivity|].
    destruct (Z.leb_spec (now + Timeout * 1000000000) now); [lia|].
    destruct (Z.leb_spec (now + Timeout * 1000000000)
                (now + Timeout * 1000000000)); [|lia].
    split; reflexivity.
  - split; [reflexivity|]. split; [reflexivity | lia].
Qed.

Lemma main_context_deadline_witness :
  exists ctx,
    snd (main_context 7 30) = Some ctx /\
    done_at ctx = Some (7 + 30 * 1000000000) /\
    done_err ctx = CtxDeadlineExceeded /\
    Context_Err ctx 7 = None /\
    Context_Err ctx (7 + 30 * 1000000000) = Some DeadlineExceeded.
Proof.
  apply (proj2 (proj2 (main_context_deadline 7 30))). lia.
Defined.

End DefaultsMore.

(* ===================================================================== *)
(** ** Path translation *)
(* ===================================================================== *)

Section PathsMore.

Import Zenity Main Samples.

Variable GOOS : string.
Variable exec_Output : list string -> string * option error.

(** X10: unless the command runs on Windows with [--wslpath] or
    [--cygpath], no path is translated: [ingestPath], [egestPath] and
    [egestPaths] return what they were given, error included. *)
Theorem paths_untouched_without_translator o :
  GOOS <> "windows" \/ (wslpath o = false /\ cygpath o = false) ->
  (forall path, ingestPath GOOS exec_Output o path = path) /\
  (forall path err, egestPath GOOS exec_Output o path err = (path, err)) /\
  (forall paths err,
     egestPaths GOOS exec_Output o paths err = (paths, err)).
Proof.
  intros H. unfold ingestPath, egestPath, egestPaths.
  destruct (String.eqb_spec GOOS "windows") as [Hw|Hw]; cbn [andb].
  - destruct H as [H|[-> ->]]; [contradiction|]. cbn.
    repeat split; intros.
    + destruct (negb (String.eqb path EmptyString)); reflexivity.
    + destruct (negb (String.eqb path EmptyString)), err; reflexivity.
    + destruct err; reflexivity.
  - repeat split.
Qed.

(** X11: when the translator cannot be run, every path is kept as it
    was: [ingestPath] hides the failure, while [egestPath] returns the
    error of the translator for a path it had to translate. *)
Theorem translator_failure_keeps_path o :
  (forall args, snd (exec_Output args) <> None) ->
  (forall path, ingestPath GOOS exec_Output o path = path) /\
  (forall path err, fst (egestPath GOOS exec_Output o path err) = path) /\
  (forall path,
     GOOS = "windows" -> wslpath o || cygpath o = true ->
     path <> EmptyString ->
     snd (egestPath GOOS exec_Output o path None) <> None).
Proof.
  intros Hfail.
  split; [|split].
  - intros path. unfold ingestPath.
    destruct (String.eqb GOOS "windows" && negb (String.eqb path EmptyString));
      [|reflexivity].
    destruct (wslpath o); [|destruct (cygpath o); [|reflexivity]];
      match goal with |- context [exec_Output ?args] =>
        pose proof (Hfail args) as H;
        destruct (exec_Output args) as [out [e|]];
        [reflexivity | contradiction]
      end.
  - intros path err. unfold egestPath.
    destruct (String.eqb GOOS "windows" && negb (String.eqb path EmptyString)
              && match err with None => true | Some _ => false end);
      [|reflexivity].
    destruct (wslpath o); [|destruct (cygpath o); [|reflexivity]];
      match goal with |- context [exec_Output ?args] =>
        pose proof (Hfail args) as H;
        destruct (exec_Output args) as [out [e|]];
        [reflexivity | contradiction]
      end.
  - intros path -> Htr Hpath. unfold egestPath.
    destruct (String.eqb_spec path EmptyString); [contradiction|]. cbn.
    destruct (wslpath o); [|destruct (cygpath o); [|discriminate]];
      match goal with |- context [exec_Output ?args] =>
        pose proof (Hfail args) as H;
        destruct (exec_Output args) as [out [e|]];
        [discriminate | contradiction]
      end.
Qed.

(** The loop keeps the number of paths. *)
Lemma egestLoop_length o paths :
  List.length (fst (egestLoop GOOS exec_Output o paths))
  = List.length paths.
Proof.
  induction paths as [|p rest IH]; [reflexivity|].
  cbn [egestLoop].
  destruct (egestPath GOOS exec_Output o p None) as [p' [e|]].
  - reflexivity.
  - destruct (egestLoop GOOS exec_Output o rest) as [rest' err'].
    cbn in *. now rewrite IH.
Qed.

(** A loop that ends without an error has translated every path. *)
Lemma egestLoop_success o paths :
  snd (egestLoop GOOS exec_Output o paths) = None ->
  fst (egestLoop GOOS exec_Output o paths)
  = map (fun p => fst (egestPath GOOS exec_Output o p None)) paths.
Proof.
  induction paths as [|p rest IH]; [reflexivity|].
  cbn [egestLoop map].
  destruct (egestPath GOOS exec_Output o p None) as [p' [e|]].
  - discriminate.
  - destruct (egestLoop GOOS exec_Output o rest) as [rest' err'].
    cbn in *. intros ->. now rewrite IH.
Qed.

(** A loop that ends with an error has translated the paths before the
    failing one and kept the rest. *)
Lemma egestLoop_failure o paths e :
  snd (egestLoop GOOS exec_Output o paths) = Some e ->
  exists done_ p rest,
    paths = (done_ ++ p :: rest)%list /\
    snd (egestPath GOOS exec_Output o p None) = Some e /\
    Forall (fun q => snd (egestPath GOOS exec_Output o q None) = None)
           done_ /\
    fst (egestLoop GOOS exec_Output o paths)
    = (map (fun q => fst (egestPath GOOS exec_Output o q None)) done_
       ++ fst (egestPath GOOS exec_Output o p None) :: rest)%list.
Proof.
  induction paths as [|p rest IH]; [discriminate|].
  cbn [egestLoop].
  destruct (egestPath GOOS exec_Output o p None) as [p' [e'|]] eqn:Hp.
  - cbn. intros [= ->]. exists [], p, rest. rewrite Hp.
    repeat split. constructor.
  - destruct (egestLoop GOOS exec_Output o rest) as [rest' err'].
    cbn [fst snd] in *. intros ->.
    destruct (IH eq_refl) as (done_ & q & rest0 & -> & Hq & Hdone & Hfst).
    exists (p :: done_), q, rest0. rewrite Hfst. cbn [map app]. rewrite Hp.
    repeat split; [exact Hq|]. constructor; [now rewrite Hp | exact Hdone].
Qed.

(** X12: [egestPaths] keeps a nil list nil and keeps the number of
    paths; when it returns no error, every path of the result is the
    translation of the path at its place. *)
Theorem egestPaths_all_translated o paths err :
  let r := egestPaths GOOS exec_Output o paths err in
  option_map (@List.length string) (fst r)
    = option_map (@List.length string) paths /\
  (snd r = None ->
   fst r =
   option_map
     (map (fun p => fst (egestPath GOOS exec_Output o p None))) paths).
Proof.
  cbv zeta. unfold egestPaths.
  destruct (String.eqb GOOS "windows"
            && match err with None => true | Some _ => false end
            && (wslpath o || cygpath o)) eqn:Hbranch.
  - destruct paths as [l|]; [|split; reflexivity].
    pose proof (egestLoop_length o l) as Hlen.
    pose proof (egestLoop_success o l) as Hok.
    destruct (egestLoop GOOS exec_Output o l) as [l' err'].
    cbn in *. split; [now rewrite Hlen|]. intros ->. now rewrite Hok.
  - cbn [fst snd]. split; [reflexivity|]. intros ->.
    destruct paths as [l|]; [|reflexivity]. cbn. f_equal.
    assert (Hid : forall p, fst (egestPath GOOS exec_Output o p None) = p).
    { intros p. unfold egestPath.
      destruct (String.eqb GOOS "windows"); [|reflexivity].
      cbn in Hbranch. destruct (wslpath o); [discriminate|].
      destruct (cygpath o); [discriminate|].
      destruct (negb (String.eqb p EmptyString)); reflexivity. }
    induction l as [|p l IH]; [reflexivity|]. cbn. now rewrite Hid, <- IH.
Qed.

(** X13: when [egestPaths] returns an error it was not given, that error
    is the translator's for one of the paths; the paths before it are
    translated, that path and the paths after it are as they were. *)
Theorem egestPaths_stops_at_first_error o l e :
  snd (egestPaths GOOS exec_Output o (Some l) None) = Some e ->
  exists done_ p rest,
    l = (done_ ++ p :: rest)%list /\
    egestPath GOOS exec_Output o p None = (p, Some e) /\
    Forall (fun q => snd (egestPath GOOS exec_Output o q None) = None)
           done_ /\
    fst (egestPaths GOOS exec_Output o (Some l) None)
    = Some (map (fun q => fst (egestPath GOOS exec_Output o q None)) done_
            ++ p :: rest)%list.
Proof.
  unfold egestPaths.
  destruct (String.eqb GOOS "windows" && true && (wslpath o || cygpath o));
    [|discriminate].
  pose proof (egestLoop_failure o l e) as Hfail.
  destruct (egestLoop GOOS exec_Output o l) as [l' err']. cbn in *.
  intros ->. destruct (Hfail eq_refl) as (done_ & p & rest & -> & Hp & Hd & ->).
  exists done_, p, rest.
  assert (Hkeep : egestPath GOOS exec_Output o p None = (p, Some e)).
  { revert Hp. unfold egestPath.
    destruct (String.eqb GOOS "windows" && negb (String.eqb p EmptyString) && true);
      [|discriminate].
    destruct (if wslpath o then Some ["wsl"; "wslpath"; "-u"]
              else if cygpath o then Some ["cygpath"; "-C"; "UTF8"; "-u"]
              else None) as [args|]; [|discriminate].
    destruct (exec_Output (args ++ [ToSlash p])) as [out [e0|]]; cbn;
      [intros [= ->]; reflexivity | discriminate]. }
  rewrite Hkeep. repeat split; assumption.
Qed.

End PathsMore.

Section PathsExamples.

Import Zenity Main Samples.

Lemma paths_untouched_without_translator_witness :
  ingestPath "linux" cygpath_ok with_cygpath "/tmp/a b" = "/tmp/a b" /\
  egestPaths "linux" cygpath_ok with_cygpath (Some ["/tmp/a"; "/tmp/b"])
    None = (Some ["/tmp/a"; "/tmp/b"], None).
Proof.
  destruct (paths_untouched_without_translator "linux" cygpath_ok
              with_cygpath) as (Hin & _ & Heg).
  - left. discriminate.
  - split; [apply Hin | apply Heg].
Defined.

Lemma translator_failure_keeps_path_witness :
  ingestPath "windows" cygpath_missing with_cygpath "C:\tmp" = "C:\tmp" /\
  snd (egestPath "windows" cygpath_missing with_cygpath "C:\tmp" None)
    <> None.
Proof.
  destruct (translator_failure_keeps_path "windows" cygpath_missing
              with_cygpath) as (Hin & _ & Heg).
  - intros args. discriminate.
  - split; [apply Hin | apply Heg; [reflexivity | reflexivity |
                                    discriminate]].
Defined.

Lemma egestPaths_all_translated_witness :
  egestPaths "windows" cygpath_ok with_cygpath (Some ["C:\tmp"]) None
    = (Some ["/cygdrive/c/tmp"], None).
Proof.
  pose proof (egestPaths_all_translated "windows" cygpath_ok with_cygpath
                (Some ["C:\tmp"]) None) as [_ H].
  specialize (H eq_refl).
  apply injective_projections; [exact H | reflexivity].
Defined.

Lemma egestPaths_stops_at_first_error_witness :
  exists done_ p rest,
    ["C:\a"; "C:\b"] = (done_ ++ p :: rest)%list /\
    egestPath "windows" cygpath_missing with_cygpath p None
      = (p, Some (SysError "executable file not found" false)) /\
    Forall
      (fun q =>
         snd (egestPath "windows" cygpath_missing with_cygpath q None)
         = None) done_ /\
    fst (egestPaths "windows" cygpath_missing with_cygpath
           (Some ["C:\a"; "C:\b"]) None)
    = Some (map (fun q =>
                   fst (egestPath "windows" cygpath_missing with_cygpath
                          q None)) done_
            ++ p :: rest)%list.
Proof.
  exact (egestPaths_stops_at_first_error "windows" cygpath_missing
           with_cygpath ["C:\a"; "C:\b"]
           (SysError "executable file not found" false) eq_refl).
Defined.

End PathsExamples.

(* ===================================================================== *)
(** ** File filters *)
(* ===================================================================== *)

Section FiltersMore.

Import Strings Zenity Main Samples.

Lemma genSplit_not_nil s sep cuts : genSplit s sep cuts <> [].
Proof.
  destruct cuts; cbn; [discriminate|].
  destruct (Cut s sep) as [[a b]|]; discriminate.
Qed.

Lemma Contains_empty c : Contains EmptyString (char_string c) = false.
Proof. reflexivity. Qed.

(** Splitting with enough cuts: the pieces are free of the separator and
    joined by it they are the string. *)
Lemma genSplit_pieces c cuts : forall s,
  (String.length s <= cuts)%nat ->
  Forall (fun it => Contains it (char_string c) = false)
         (genSplit s (char_string c) cuts) /\
  Join (genSplit s (char_string c) cuts) (char_string c) = s.
Proof.
  induction cuts as [|k IH]; intros s Hlen.
  - destruct s; [|cbn in Hlen; lia]. cbn. split; [|reflexivity].
    constructor; [reflexivity | constructor].
  - cbn [genSplit].
    destruct (Cut s (char_string c)) as [[a b]|] eqn:Hcut.
    + destruct (Cut_char_spec _ _ _ _ Hcut) as [-> Hno].
      assert (Hb : (String.length b <= k)%nat).
      { rewrite length_app_string in Hlen. cbn in Hlen. lia. }
      destruct (IH b Hb) as [Hall Hjoin].
      split; [constructor; assumption|].
      pose proof (genSplit_not_nil b (char_string c) k) as Hne.
      destruct (genSplit b (char_string c) k) as [|x xs];
        [contradiction|].
      rewrite Join_cons, Hjoin. reflexivity.
    + split; [|reflexivity].
      constructor; [|constructor].
      unfold Contains. now rewrite Hcut.
Qed.

(** [strings.Split] at a one-character separator. *)
Lemma Split_pieces c s :
  Split s (char_string c) <> [] /\
  Forall (fun it => Contains it (char_string c) = false)
         (Split s (char_string c)) /\
  Join (Split s (char_string c)) (char_string c) = s.
Proof.
  unfold Split, SplitN.
  cbn [Z.eqb String.eqb char_string Z.ltb Z.compare].
  split; [apply genSplit_not_nil|].
  apply (genSplit_pieces c). lia.
Qed.

(** The two parts [addFileFilter] sees in its argument. *)
Lemma filter_parts_spec s :
  match Cut s "|" with
  | Some (a, b) => filter_parts s = (Some a, b)
  | None => filter_parts s = (None, s)
  end.
Proof.
  unfold filter_parts. change "|" with (char_string "|").
  rewrite SplitN_2.
  destruct (Cut s (char_string "|")) as [[a b]|]; reflexivity.
Qed.

Variable TrimSpace : string -> string.

(** X14: [addFileFilter] never fails and appends one filter to the
    filters collected so far.  The name is the trimmed text before the
    first vertical bar, or empty when there is no bar; the patterns are
    taken from the trimmed text after it, or from the whole trimmed
    argument: there is always at least one pattern, no pattern contains
    a space, and the patterns joined by single spaces are that trimmed
    text. *)
Theorem addFileFilter_appends_one_filter s fileFilters :
  snd (addFileFilter TrimSpace s fileFilters) = None /\
  exists f,
    fst (addFileFilter TrimSpace s fileFilters)
      = (fileFilters ++ [f])%list /\
    Patterns f <> [] /\
    Forall (fun p => Contains p " " = false) (Patterns f) /\
    (Contains s "|" = false ->
     Name f = EmptyString /\ Join (Patterns f) " " = TrimSpace s) /\
    (forall a b, s = a ++ "|" ++ b -> Contains a "|" = false ->
     Name f = TrimSpace a /\ Join (Patterns f) " " = TrimSpace b).
Proof.
  unfold addFileFilter. pose proof (filter_parts_spec s) as Hparts.
  destruct (filter_parts s) as [name rest]. cbn [fst snd].
  split; [reflexivity|]. eexists. split; [reflexivity|]. cbn [Name Patterns].
  change " " with (char_string " ").
  destruct (Split_pieces " " (TrimSpace rest)) as (Hne & Hall & Hjoin).
  split; [exact Hne|]. split; [exact Hall|]. split.
  - intros Hno. change "|" with (char_string "|") in *.
    rewrite (Cut_char_none _ _ Hno) in Hparts.
    injection Hparts as -> ->. split; [reflexivity | exact Hjoin].
  - intros a b -> Hno. change "|" with (char_string "|") in *.
    cbn [append char_string] in Hparts.
    rewrite (Cut_char_found "|" a b Hno) in Hparts.
    injection Hparts as -> ->. split; [reflexivity | exact Hjoin].
Qed.

End FiltersMore.

Section FiltersExamples.

Import Strings Zenity Main Samples.

Lemma addFileFilter_appends_one_filter_witness :
  exists f,
    fst (addFileFilter trim_nothing "Images|*.png *.jpg" []) = [f] /\
    Name f = "Images" /\ Join (Patterns f) " " = "*.png *.jpg".
Proof.
  destruct (addFileFilter_appends_one_filter trim_nothing
              "Images|*.png *.jpg" []) as (_ & f & Hf & _ & _ & _ & Hbar).
  exists f. split; [exact Hf|].
  exact (Hbar "Images" "*.png *.jpg" eq_refl eq_refl).
Defined.

End FiltersExamples.

(* ===================================================================== *)
(** ** More on results and exit codes *)
(* ===================================================================== *)

Section ExitMore.

Import Zenity Main Samples.

Variable LineBreak : string.
Variable extraButton : string.
Variable Separator : string.
Variable UnparseColor : Color_ -> string.

(** The ends [errResult] can give to the process. *)
Lemma errResult_cases err :
  (IsTimeout err = true /\ errResult LineBreak extraButton err = exit 5) \/
  (IsTimeout err = false /\ err = Some ErrExtraButton /\
   errResult LineBreak extraButton err =
     {| Stdout := extraButton ++ LineBreak; Stderr := EmptyString;
        code := 1 |}) \/
  (IsTimeout err = false /\
   exists e, err = Some e /\
     errResult LineBreak extraButton err =
       {| Stdout := EmptyString; Stderr := Error e ++ LineBreak;
          code := -1 |}) \/
  (err = None /\ errResult LineBreak extraButton err = exit 0).
Proof.
  unfold errResult. destruct (IsTimeout err) eqn:Ht; [left; tauto|].
  destruct err as [e|]; [|right; right; right; tauto].
  destruct e; try (right; right; left; split; [reflexivity|]; eexists;
                   split; reflexivity).
  right; left. repeat split.
Qed.

(** X15: however the command ends, its exit code is 0, 1, 5 or -1; it
    writes to at most one of the two streams; it writes to the error
    stream only with code -1 and to standard output only with code 0 or
    1; with code 5 it writes nothing. *)
Theorem exit_code_and_streams r :
  (exists err, r = errResult LineBreak extraButton err) \/
  (exists ok err, r = okResult LineBreak extraButton ok err) \/
  (exists s err, r = strResult LineBreak extraButton s err) \/
  (exists s ok err, r = strOKResult LineBreak extraButton s ok err) \/
  (exists l err, r = listResult LineBreak extraButton Separator l err) \/
  (exists c err,
     r = colorResult UnparseColor LineBreak extraButton c err) ->
  (code r = 0 \/ code r = 1 \/ code r = 5 \/ code r = -1) /\
  (Stdout r = EmptyString \/ Stderr r = EmptyString) /\
  (Stderr r <> EmptyString -> code r = -1) /\
  (Stdout r <> EmptyString -> code r = 0 \/ code r = 1) /\
  (code r = 5 -> Stdout r = EmptyString /\ Stderr r = EmptyString).
Proof.
  assert (Herr : forall err,
    let r := errResult LineBreak extraButton err in
    (code r = 0 \/ code r = 1 \/ code r = 5 \/ code r = -1) /\
    (Stdout r = EmptyString \/ Stderr r = EmptyString) /\
    (Stderr r <> EmptyString -> code r = -1) /\
    (Stdout r <> EmptyString -> code r = 0 \/ code r = 1) /\
    (code r = 5 -> Stdout r = EmptyString /\ Stderr r = EmptyString)).
  { intros err. cbv zeta.
    destruct (errResult_cases err)
      as [[_ ->] | [(_ & _ & ->) | [(_ & e & _ & ->) | [_ ->]]]]; cbn;
      repeat split; try tauto; try discriminate; auto. }
  assert (Hval : forall out c, c = 0 \/ c = 1 ->
    let r := {| Stdout := out; Stderr := EmptyString; code := c |} in
    (code r = 0 \/ code r = 1 \/ code r = 5 \/ code r = -1) /\
    (Stdout r = EmptyString \/ Stderr r = EmptyString) /\
    (Stderr r <> EmptyString -> code r = -1) /\
    (Stdout r <> EmptyString -> code r = 0 \/ code r = 1) /\
    (code r = 5 -> Stdout r = EmptyString /\ Stderr r = EmptyString)).
  { intros out c Hc. cbn. repeat split; try tauto; try lia;
      intros; subst; destruct Hc; discriminate. }
  intros [(err & ->) | [(ok & err & ->) | [(s & err & ->) |
          [(s & ok & err & ->) | [(l & err & ->) | (c & err & ->)]]]]].
  - apply Herr.
  - unfold okResult. destruct err; [apply Herr|].
    destruct ok; apply (Hval EmptyString); tauto.
  - unfold strResult. destruct err; [apply Herr|].
    destruct (String.eqb s EmptyString);
      [apply (Hval EmptyString) | apply Hval]; tauto.
  - unfold strOKResult. destruct err; [apply Herr|].
    destruct ok; cbn [negb];
      [apply Hval | apply (Hval EmptyString)]; tauto.
  - unfold listResult. destruct err; [apply Herr|].
    destruct l; [apply Hval | apply (Hval EmptyString)]; tauto.
  - unfold colorResult. destruct err; [apply Herr|].
    destruct c; [apply Hval | apply (Hval EmptyString)]; tauto.
Qed.

(** An error never ends in code 0, and ends in code 5 exactly when it is
    a timeout. *)
Lemma errResult_of_error e :
  code (errResult LineBreak extraButton (Some e)) <> 0 /\
  (code (errResult LineBreak extraButton (Some e)) = 5 <->
   IsTimeout (Some e) = true).
Proof.
  destruct (errResult_cases (Some e))
    as [[Ht ->] | [(Ht & _ & ->) | [(Ht & e' & _ & ->) | [H _]]]];
    try discriminate; rewrite Ht; cbn [code exit]; split;
    try discriminate; split; intros; try discriminate; reflexivity.
Qed.

(** X16: the exit code is 0 exactly when there is no error and there is
    a value: a true answer, a non-empty string, a string with [ok], a
    list that is not nil, a colour.  The exit code is 5 exactly when the
    error is a timeout, whatever value comes with it. *)
Theorem exit_code_zero_and_five ok s l c err :
  (code (errResult LineBreak extraButton err) = 0 <-> err = None) /\
  (code (okResult LineBreak extraButton ok err) = 0 <->
   err = None /\ ok = true) /\
  (code (strResult LineBreak extraButton s err) = 0 <->
   err = None /\ s <> EmptyString) /\
  (code (strOKResult LineBreak extraButton s ok err) = 0 <->
   err = None /\ ok = true) /\
  (code (listResult LineBreak extraButton Separator l err) = 0 <->
   err = None /\ l <> None) /\
  (code (colorResult UnparseColor LineBreak extraButton c err) = 0 <->
   err = None /\ c <> None) /\
  (code (errResult LineBreak extraButton err) = 5 <->
   IsTimeout err = true) /\
  (code (okResult LineBreak extraButton ok err) = 5 <->
   IsTimeout err = true) /\
  (code (strResult LineBreak extraButton s err) = 5 <->
   IsTimeout err = true) /\
  (code (strOKResult LineBreak extraButton s ok err) = 5 <->
   IsTimeout err = true) /\
  (code (listResult LineBreak extraButton Separator l err) = 5 <->
   IsTimeout err = true) /\
  (code (colorResult UnparseColor LineBreak extraButton c err) = 5 <->
   IsTimeout err = true).
Proof.
  unfold okResult, strResult, strOKResult, listResult, colorResult.
  destruct err as [e|].
  - destruct (errResult_of_error e) as [H0 H5]. cbv iota.
    repeat split; intros; try discriminate;
      try (exfalso; apply H0; assumption);
      try (apply H5; assumption);
      try (match goal with H : _ /\ _ |- _ => destruct H; discriminate end).
  - cbn [IsTimeout].
    destruct ok, l, c, (String.eqb_spec s EmptyString); cbn;
      intuition (try congruence; try discriminate).
Qed.

End ExitMore.

Section ExitExamples.

Import Zenity Main Samples.

Lemma exit_code_and_streams_witness :
  let r := strResult LF "Later" "/tmp/a" (Some Canceled) in
  (code r = 0 \/ code r = 1 \/ code r = 5 \/ code r = -1) /\
  (Stdout r = EmptyString \/ Stderr r = EmptyString) /\
  (Stderr r <> EmptyString -> code r = -1) /\
  (Stdout r <> EmptyString -> code r = 0 \/ code r = 1) /\
  (code r = 5 -> Stdout r = EmptyString /\ Stderr r = EmptyString).
Proof.
  apply (exit_code_and_streams LF "Later" "|" unparse_black).
  right. right. left. exists "/tmp/a", (Some Canceled). reflexivity.
Defined.

End ExitExamples.

(* ===================================================================== *)
(** ** More on the dialogs of the external-process family *)
(* ===================================================================== *)

Section UnixMore.

Import Strings Zenity Samples.

Variable Run : option Context -> list string -> option string * option error.
Variable strResult :
  options -> option string -> option error -> string * bool * option error.
Variable appendTitle : list string -> options -> list string.
Variable appendButtons : list string -> options -> list string.
Variable UnparseColor : Color_ -> string.
Variable ParseColor : string -> Color_.

(** X17: when the user name was not asked for, or the decoder reports no
    success, [password] splits nothing: it returns the empty user name
    and the string, the [ok] and the error of the decoder as they are,
    also when the output holds a vertical bar. *)
Theorem password_not_split opts out err str ok e :
  Run (ctx opts) (password_args appendTitle appendButtons opts)
    = (out, err) ->
  strResult opts out err = (str, ok, e) ->
  username opts = false \/ ok = false ->
  password Run strResult appendTitle appendButtons opts
    = (EmptyString, str, ok, e).
Proof.
  intros Hrun Hdec H. unfold password. rewrite Hrun, Hdec.
  destruct H as [-> | ->]; [rewrite andb_false_r | cbn [andb]];
    reflexivity.
Qed.

(** X18: [selectColor] never returns a colour together with an error: it
    returns the colour parsed from the decoded string and a nil error
    when the decoder reports success, and no colour with the error of the
    decoder, which is nil for a dialog that was cancelled, when it does
    not. *)
Theorem selectColor_colour_or_error opts out err str ok e :
  Run (ctx opts) (selectColor_args appendTitle UnparseColor opts)
    = (out, err) ->
  strResult opts out err = (str, ok, e) ->
  let r := selectColor Run strResult appendTitle UnparseColor ParseColor
             opts in
  (fst r = None \/ snd r = None) /\
  (ok = true -> r = (Some (ParseColor str), None)) /\
  (ok = false -> r = (None, e)).
Proof.
  intros Hrun Hdec. cbv zeta. unfold selectColor. rewrite Hrun, Hdec.
  destruct ok; cbn; repeat split; try tauto; discriminate.
Qed.

End UnixMore.

Section UnixExamples.

Import Strings Zenity Samples.

Lemma password_not_split_witness :
  password (prints ("a|b" ++ LF)) decode_line no_flags no_flags
    without_username = (EmptyString, "a|b", true, None).
Proof.
  exact (password_not_split (prints ("a|b" ++ LF)) decode_line no_flags
           no_flags without_username (Some ("a|b" ++ LF)) None "a|b" true
           None eq_refl eq_refl (or_introl eq_refl)).
Defined.

Lemma selectColor_colour_or_error_witness :
  selectColor (prints ("#000000" ++ LF)) decode_line no_flags unparse_black
    parse_black without_username = (Some (0, 0, 0, 255), None).
Proof.
  apply (proj1 (proj2 (selectColor_colour_or_error
           (prints ("#000000" ++ LF)) decode_line no_flags unparse_black
           parse_black without_username (Some ("#000000" ++ LF)) None
           "#000000" true None eq_refl eq_refl))).
  reflexivity.
Defined.

End UnixExamples.

(* ===================================================================== *)
(** ** The dialog the command calls *)
(* ===================================================================== *)

Section DispatchMore.

Import Zenity Main Samples.

Lemma incr_if_b2z b n : incr_if b n = n + Z.b2z b.
Proof. destruct b; cbn; lia. Qed.

Lemma b2z_range b : 0 <= Z.b2z b <= 1.
Proof. destruct b; cbn; lia. Qed.

Lemma b2z_true b : Z.b2z b = 1 -> b = true.
Proof. destruct b; [reflexivity | discriminate]. Qed.

Lemma b2z_false b : Z.b2z b = 0 -> b = false.
Proof. destruct b; [discriminate | reflexivity]. Qed.

(** X19: after [validateFlags], the dialog [main] calls is the one of
    the kind that was asked for, whatever its place in the [switch]: the
    message, entry and notification dialogs get the text, the list
    dialog is the multiple one exactly with [--multiple], and for a file
    selection [--save] goes before [--multiple]. *)
Theorem dispatch_calls_the_kind a g o args opts :
  validateFlags a = None ->
  (errorDlg a = true ->
   dispatch a g o args opts = CallError (text g) opts) /\
  (infoDlg a = true ->
   dispatch a g o args opts = CallInfo (text g) opts) /\
  (warningDlg a = true ->
   dispatch a g o args opts = CallWarning (text g) opts) /\
  (questionDlg a = true ->
   dispatch a g o args opts = CallQuestion (text g) opts) /\
  (entryDlg a = true ->
   dispatch a g o args opts = CallEntry (text g) opts) /\
  (listDlg a = true ->
   dispatch a g o args opts =
     if multiple g then CallListMultiple (text g) args opts
     else CallList (text g) args opts) /\
  (passwordDlg a = true ->
   dispatch a g o args opts = CallPassword opts) /\
  (fileSelectionDlg a = true ->
   dispatch a g o args opts =
     if save o then CallSelectFileSave opts
     else if multiple g then CallSelectFileMutiple opts
     else CallSelectFile opts) /\
  (colorSelectionDlg a = true ->
   dispatch a g o args opts = CallSelectColor opts) /\
  (notification a = true ->
   dispatch a g o args opts = CallNotify (text g) opts).
Proof.
  unfold validateFlags.
  destruct (Z.eqb_spec (kinds_set a) 1) as [Hone|]; [|discriminate].
  intros _. unfold kinds_set in Hone. rewrite !incr_if_b2z in Hone.
  pose proof (b2z_range (errorDlg a)).
  pose proof (b2z_range (infoDlg a)).
  pose proof (b2z_range (warningDlg a)).
  pose proof (b2z_range (questionDlg a)).
  pose proof (b2z_range (entryDlg a)).
  pose proof (b2z_range (listDlg a)).
  pose proof (b2z_range (passwordDlg a)).
  pose proof (b2z_range (fileSelectionDlg a)).
  pose proof (b2z_range (colorSelectionDlg a)).
  pose proof (b2z_range (notification a)).
  repeat split; intros Hk;
    pose proof (f_equal Z.b2z Hk) as Hz; cbn [Z.b2z] in Hz;
    unfold dispatch;
    try (assert (errorDlg a = false) as ->
           by (apply b2z_false; lia));
    try (assert (infoDlg a = false) as ->
           by (apply b2z_false; lia));
    try (assert (warningDlg a = false) as ->
           by (apply b2z_false; lia));
    try (assert (questionDlg a = false) as ->
           by (apply b2z_false; lia));
    try (assert (entryDlg a = false) as ->
           by (apply b2z_false; lia));
    try (assert (listDlg a = false) as ->
           by (apply b2z_false; lia));
    try (assert (passwordDlg a = false) as ->
           by (apply b2z_false; lia));
    try (assert (fileSelectionDlg a = false) as ->
           by (apply b2z_false; lia));
    try (assert (colorSelectionDlg a = false) as ->
           by (apply b2z_false; lia));
    rewrite Hk; reflexivity.
Qed.

Lemma dispatch_calls_the_kind_witness :
  dispatch password_only setupFlags_general setupFlags_others [] []
    = CallPassword [].
Proof.
  exact (proj1 (proj2 (proj2 (proj2 (proj2 (proj2 (proj2
           (dispatch_calls_the_kind password_only setupFlags_general
              setupFlags_others [] [] eq_refl)))))))
         eq_refl).
Defined.

End DispatchMore.
